(** * thelper.data.geo.utils: pixel/geo alignment helpers

    A shallow embedding of [thelper/data/geo/utils.py].  Python floats are
    modelled by exact rationals ([Q]); Python exceptions by the [Err] case
    of [result].  The native libraries the module calls (affine, shapely,
    osr/ogr, gdal) are external to the repository: the affine package is
    embedded below from its documented arithmetic, the others are taken as
    interfaces (type classes) with a small executable instance. *)

From Stdlib Require Import ZArith QArith Qround Qabs Qminmax Lia Lqa String Ascii List Bool.
From stdpp Require Import gmap strings list fin_maps.
Import ListNotations.

Local Open Scope Q_scope.

(** ** Exceptions

    An assertion carries the constant part of the source's message; the
    interpolated path, type or error code is left out. *)

Inductive exn : Type :=
| AssertionError (msg : string)
| TransformNotInvertibleError
| ValueError
| TypeError
| IndexError
| KeyError (key : string)
| AttributeError.

Inductive result (A : Type) : Type :=
| Ok (a : A)
| Err (e : exn).
Arguments Ok {A} a.
Arguments Err {A} e.

#[global] Instance result_ret : MRet result := fun A a => Ok a.
#[global] Instance result_bind : MBind result := fun A B k r =>
  match r with
  | Ok a => k a
  | Err e => Err e
  end.

Definition assert (b : bool) (msg : string) : result unit :=
  if b then Ok tt else Err (AssertionError msg).

Definition is_ok {A : Type} (r : result A) : bool :=
  match r with Ok _ => true | Err _ => false end.

(** Python truthiness of the optional arguments. *)
Definition truthy_seq {A : Type} (o : option (list A)) : bool :=
  match o with Some (_ :: _) => true | _ => false end.
Definition truthy_int (o : option Z) : bool :=
  match o with Some z => negb (z =? 0)%Z | None => false end.
Definition truthy_float (o : option Q) : bool :=
  match o with Some q => negb (Qeq_bool q 0) | None => false end.

Definition is_none {A : Type} (o : option A) : bool :=
  match o with None => true | Some _ => false end.
Definition is_some {A : Type} (o : option A) : bool := negb (is_none o).

(** [seq[i]], raising on an index out of range. *)
Definition index {A : Type} (l : list A) (i : nat) : result A :=
  match nth_error l i with
  | Some x => Ok x
  | None => Err IndexError
  end.

(** ** Python values and strings

    JSON-like values as the GeoJSON trees carry them.  A [dict] is an
    association list in insertion order ([.values()] is positional for the
    CRS importers).  Strings are ASCII. *)
#[local] Unset Elimination Schemes.
Inductive pyval : Type :=
| PNone
| PBool (b : bool)
| PInt (z : Z)
| PFloat (q : Q)
| PStr (s : string)
| PList (l : list pyval)
| PDict (d : list (string * pyval)).
#[local] Set Elimination Schemes.

Definition dict : Type := list (string * pyval).

Fixpoint dict_get {A : Type} (d : list (string * A)) (k : string) : option A :=
  match d with
  | [] => None
  | (k', v) :: d' => if String.eqb k' k then Some v else dict_get d' k
  end.

(** [d[k] = v]: replaces the entry in place, or appends a new one. *)
Fixpoint dict_set {A : Type} (d : list (string * A)) (k : string) (v : A)
  : list (string * A) :=
  match d with
  | [] => [(k, v)]
  | (k', v') :: d' =>
      if String.eqb k' k then (k', v) :: d' else (k', v') :: dict_set d' k v
  end.

Definition truthy (v : pyval) : bool :=
  match v with
  | PNone => false
  | PBool b => b
  | PInt z => negb (z =? 0)%Z
  | PFloat q => negb (Qeq_bool q 0)
  | PStr s => negb (String.eqb s "")
  | PList l => negb (Nat.eqb (length l) 0)
  | PDict d => negb (Nat.eqb (length d) 0)
  end.

(** [a or b] *)
Definition py_or (a b : pyval) : pyval := if truthy a then a else b.

(** [d.get(k)] *)
Definition py_get (d : dict) (k : string) : pyval :=
  default PNone (dict_get d k).

Definition upper_ascii (c : ascii) : ascii :=
  let n := nat_of_ascii c in
  if (97 <=? n)%nat && (n <=? 122)%nat then ascii_of_nat (n - 32) else c.

(** [s.upper()] *)
Fixpoint upper (s : string) : string :=
  match s with
  | EmptyString => EmptyString
  | String c s' => String (upper_ascii c) (upper s')
  end.

Fixpoint starts_with (p s : string) : bool :=
  match p, s with
  | EmptyString, _ => true
  | String a p', String b s' => Ascii.eqb a b && starts_with p' s'
  | String _ _, EmptyString => false
  end.

(** [p in s] on strings *)
Fixpoint str_in (p s : string) : bool :=
  starts_with p s ||
  match s with
  | EmptyString => false
  | String _ s' => str_in p s'
  end.

(** [s.endswith(p)] *)
Fixpoint ends_with (s p : string) : bool :=
  String.eqb s p ||
  match s with
  | EmptyString => false
  | String _ s' => ends_with s' p
  end.

Fixpoint drop_str (n : nat) (s : string) : string :=
  match n, s with
  | O, _ => s
  | S n', String _ s' => drop_str n' s'
  | S _, EmptyString => EmptyString
  end.

(** [s.replace(old, "")] for a non-empty [old]; [fuel] bounds the scan. *)
Fixpoint remove_all (fuel : nat) (old s : string) : string :=
  match fuel with
  | O => s
  | S fuel' =>
      match s with
      | EmptyString => EmptyString
      | String c s' =>
          if starts_with old s
          then remove_all fuel' old (drop_str (String.length old) s)
          else String c (remove_all fuel' old s')
      end
  end.

Definition str_remove (s old : string) : string :=
  remove_all (S (String.length s)) old s.

(** [s.split(sep)[-1]] for a one-character separator: the text after the
    last separator. *)
Fixpoint last_field (sep : ascii) (s acc : string) : string :=
  match s with
  | EmptyString => acc
  | String c s' =>
      if Ascii.eqb c sep then last_field sep s' s' else last_field sep s' acc
  end.

Definition split_last (s : string) (sep : ascii) : string := last_field sep s s.

Definition is_space (c : ascii) : bool :=
  let n := nat_of_ascii c in
  ((9 <=? n)%nat && (n <=? 13)%nat) || (n =? 32)%nat.

Fixpoint lstrip (s : string) : string :=
  match s with
  | String c s' => if is_space c then lstrip s' else s
  | EmptyString => EmptyString
  end.

Fixpoint rev_str (s acc : string) : string :=
  match s with
  | EmptyString => acc
  | String c s' => rev_str s' (String c acc)
  end.

(** [s.strip()] *)
Definition strip (s : string) : string :=
  rev_str (lstrip (rev_str (lstrip s) "")) "".

Definition digit_of (c : ascii) : option Z :=
  let n := nat_of_ascii c in
  if (48 <=? n)%nat && (n <=? 57)%nat then Some (Z.of_nat (n - 48)) else None.

(** Decimal digits with single underscores between digits.
    [prev_digit] tells whether the previous character was a digit. *)
Fixpoint parse_digits (s : string) (acc : Z) (prev_digit : bool) : option Z :=
  match s with
  | EmptyString => if prev_digit then Some acc else None
  | String c s' =>
      match digit_of c with
      | Some dv => parse_digits s' (10 * acc + dv)%Z true
      | None =>
          if Ascii.eqb c "_" && prev_digit then
            match s' with
            | String c' _ =>
                if is_some (digit_of c') then parse_digits s' acc false
                else None
            | EmptyString => None
            end
          else None
      end
  end.

(** [int(s)] for a string: surrounding whitespace, an optional sign,
    decimal digits; [ValueError] otherwise. *)
Definition py_int (s : string) : result Z :=
  let body := strip s in
  let '(neg, ds) :=
    match body with
    | String "-" r => (true, r)
    | String "+" r => (false, r)
    | _ => (false, body)
    end in
  match parse_digits ds 0%Z false with
  | Some z => Ok (if neg then (- z)%Z else z)
  | None => Err ValueError
  end.

(** ** Points *)

Definition point : Type := (Q * Q)%type.

(** Equality of points up to the representation of the rationals. *)
Definition pt_eq (p q : point) : Prop := fst p == fst q /\ snd p == snd q.

(** ** The affine package

    [affine.Affine(a, b, c, d, e, f)] is the matrix
    [[a b c] [d e f] [0 0 1]]; [Affine.from_gdal(c, a, b, f, d, e)]
    reorders a GDAL geotransform into it, [t * (x, y)] applies it, and
    [~t] inverts it, raising [TransformNotInvertibleError] when the
    determinant [a*e - b*d] is zero.  The numbers are exact rationals:
    the package tests the determinant of doubles, which rounding can
    also make zero for a transform that is nearly singular. *)
Module Affine.

Record t : Type := mk { a : Q; b : Q; c : Q; d : Q; e : Q; f : Q }.

Definition from_gdal (c a b f d e : Q) : t := mk a b c d e f.

Definition determinant (m : t) : Q := a m * e m - b m * d m.

Definition is_degenerate (m : t) : bool := Qeq_bool (determinant m) 0.

Definition mul (m : t) (p : point) : point :=
  let (vx, vy) := p in
  (vx * a m + vy * b m + c m, vx * d m + vy * e m + f m).

Definition invert (m : t) : result t :=
  if is_degenerate m then Err TransformNotInvertibleError
  else
    let idet := 1 / determinant m in
    let ra := e m * idet in
    let rb := - b m * idet in
    let rd := - d m * idet in
    let re := a m * idet in
    Ok (mk ra rb (- c m * ra - f m * rb) rd re (- c m * rd - f m * re)).

End Affine.

(** ** Geotransforms: (orig_x, res_x, skew_x, orig_y, skew_y, res_y) *)

Record geotransform : Type := Geotransform {
  orig_x : Q; res_x : Q; skew_x : Q; orig_y : Q; skew_y : Q; res_y : Q
}.

Definition affine_of (gt : geotransform) : Affine.t :=
  Affine.from_gdal (orig_x gt) (res_x gt) (skew_x gt)
                   (orig_y gt) (skew_y gt) (res_y gt).

(** [get_pxcoord(geotransform, x, y)] *)
Definition get_pxcoord (gt : geotransform) (x y : Q) : result point :=
  inv_transform ← Affine.invert (affine_of gt);
  Ok (Affine.mul inv_transform (x, y)).

(** [get_geocoord(geotransform, x, y)]; [float(x)] is the identity on [Q]. *)
Definition get_geocoord (gt : geotransform) (x y : Q) : point :=
  Affine.mul (affine_of gt) (x, y).

(** [get_geoextent(geotransform, x, y, cols, rows)] *)
Definition get_geoextent (gt : geotransform) (x y cols rows : Q) : list point :=
  let tl := get_geocoord gt x y in
  let bl := get_geocoord gt x (y + rows) in
  let br := get_geocoord gt (x + cols) (y + rows) in
  let tr := get_geocoord gt (x + cols) y in
  [tl; bl; br; tr].

(** The determinant of the affine map of a geotransform. *)
Definition gt_det (gt : geotransform) : Q :=
  res_x gt * res_y gt - skew_x gt * skew_y gt.

(** ** The geometry collaborator (shapely)

    Only the operations the module calls.  [bounds] is
    [(minx, miny, maxx, maxy)], and [None] stands for the empty tuple that
    an empty geometry has as its bounds; [centroid] is the pair of
    coordinates of the centroid, and [None] stands for the empty point
    that an empty geometry has as its centroid; [buffer] with a negative
    distance may return an empty geometry; [polygon] is
    [shapely.geometry.Polygon] applied to a ring of points, [shape] is
    [shapely.geometry.shape] applied to a GeoJSON geometry mapping;
    [transform] stands for the WKB -> OGR -> [Transform] -> WKT round trip
    of a geometry through a coordinate transformation [T]. *)
Class GeometryLib (G T : Type) : Type := {
  bounds : G -> option (Q * Q * Q * Q);
  centroid : G -> option point;
  buffer : G -> Q -> G;
  polygon : list point -> G;
  geom_type : G -> string;
  is_valid : G -> bool;
  intersects : G -> G -> bool;
  contains : G -> G -> bool;
  intersection : G -> G -> G;
  transform : T -> G -> G;
  shape : dict -> G;
  cascaded_union : list G -> G
}.

(** Reading a coordinate of the bounds or of the centroid of a geometry:
    [bounds[0]] on the empty tuple and [centroid.x] on the empty point
    raise [IndexError]. *)
Definition coords {A : Type} (o : option A) : result A :=
  match o with
  | Some a => Ok a
  | None => Err IndexError
  end.

Section FeatureRoi.
Context {G T : Type} `{GeometryLib G T}.

(** [get_feature_bbox(geom, offsets=None)] *)
Definition get_feature_bbox (geom : G) (offsets : option (list Q))
  : result (point * point) :=
  _ ← (if truthy_seq offsets
          && negb (length (default [] offsets) =? 2)%nat
       then Err (AssertionError "offset param must be 2d")
       else Ok tt);
  let bounds := bounds geom in
  '(roi_tl, roi_br) ←
    (if truthy_seq offsets then
       let centroid := centroid geom in
       centroid ← coords centroid;
       o0 ← index (default [] offsets) 0;
       o1 ← index (default [] offsets) 1;
       Ok ((fst centroid - o0, snd centroid + o1),
           (fst centroid + o0, snd centroid - o1))
     else
       '(b0, b1, b2, b3) ← coords bounds;
       Ok ((b0, b3), (b2, b1)));
  Ok ((Qmin (fst roi_tl) (fst roi_br), Qmin (snd roi_tl) (snd roi_br)),
      (Qmax (fst roi_tl) (fst roi_br), Qmax (snd roi_tl) (snd roi_br))).

(** The local transform of [get_feature_roi]: zero origin, the given
    resolution and skew. *)
Definition offset_geotransform (px_size skew : Q * Q) : geotransform :=
  Geotransform 0 (fst px_size) (fst skew) 0 (snd skew) (snd px_size).

(** The geometry after the optional [geom.buffer(roi_buffer)]. *)
Definition buffered (geom : G) (roi_buffer : option Q) : G :=
  match roi_buffer with
  | Some r => buffer geom r
  | None => geom
  end.

(** The half-extents [get_feature_roi] derives from a pixel crop size. *)
Definition crop_offsets (px_size skew : Q * Q) (crop : Z) : list Q :=
  [ Qabs (fst (get_geocoord (offset_geotransform px_size skew)
                 (inject_Z crop) (inject_Z crop)) / 2);
    Qabs (snd (get_geocoord (offset_geotransform px_size skew)
                 (inject_Z crop) (inject_Z crop)) / 2) ].

(** [get_feature_roi(geom, px_size, skew, roi_buffer, crop_img_size,
    crop_real_size)].  [px_size] and [skew] are x/y pairs and
    [roi_buffer] a number by their types, which discharges the three
    [isinstance] assertions.  [math.floor] and [math.ceil] are taken of
    the exact rational pixel position; the doubles of the code can fall
    on the other side of an integer. *)
Definition get_feature_roi (geom : G) (px_size skew : Q * Q)
    (roi_buffer : option Q) (crop_img_size : option Z)
    (crop_real_size : option Q)
  : result (G * point * point * Z * Z) :=
  _ ← assert (is_none crop_img_size || is_none crop_real_size)
        "should provide at most one type of crop resolution";
  let geom := match roi_buffer with
              | Some r => buffer geom r
              | None => geom
              end in
  let offset_geotransform := offset_geotransform px_size skew in
  '(roi_tl, roi_br) ←
    (if truthy_int crop_img_size || truthy_float crop_real_size then
       '(x_offset, y_offset) ←
         (if truthy_int crop_img_size then
            let crop_size := default 0%Z crop_img_size in
            let '(x_offset, y_offset) :=
              get_geocoord offset_geotransform
                (inject_Z crop_size) (inject_Z crop_size) in
            Ok (Qabs (x_offset / 2), Qabs (y_offset / 2))
          else if truthy_float crop_real_size then
            let half := default 0 crop_real_size / 2 in
            Ok (half, half)
          else Err ValueError);
       get_feature_bbox geom (Some [x_offset; y_offset])
     else get_feature_bbox geom None);
  roi_tl_offsetpx_real ←
    get_pxcoord offset_geotransform (fst roi_tl) (snd roi_tl);
  let roi_tl_offsetpx :=
    (Qfloor (fst roi_tl_offsetpx_real), Qfloor (snd roi_tl_offsetpx_real)) in
  '(roi_br_offsetpx, crop_width, crop_height) ←
    (if truthy_int crop_img_size then
       let crop := default 0%Z crop_img_size in
       Ok ((fst roi_tl_offsetpx + crop, snd roi_tl_offsetpx + crop)%Z,
           crop, crop)
     else
       roi_br_offsetpx_real ←
         get_pxcoord offset_geotransform (fst roi_br) (snd roi_br);
       let roi_br_offsetpx :=
         (Qceiling (fst roi_br_offsetpx_real),
          Qceiling (snd roi_br_offsetpx_real)) in
       Ok (roi_br_offsetpx,
           Z.max (fst roi_br_offsetpx - fst roi_tl_offsetpx) 1,
           Z.max (snd roi_br_offsetpx - snd roi_tl_offsetpx) 1));
  let roi_tl := get_geocoord offset_geotransform
                  (inject_Z (fst roi_tl_offsetpx))
                  (inject_Z (snd roi_tl_offsetpx)) in
  let roi_br := get_geocoord offset_geotransform
                  (inject_Z (fst roi_br_offsetpx))
                  (inject_Z (snd roi_br_offsetpx)) in
  let roi := polygon [roi_tl; (fst roi_br, snd roi_tl); roi_br;
                      (fst roi_tl, snd roi_br)] in
  Ok (roi, roi_tl, roi_br, crop_width, crop_height).

End FeatureRoi.

(** ** The CRS collaborator (osr)

    [import_from k args srs] is [srs.ImportFromK( *args )]: the OGR error
    code (0 is success) and the updated object, or the exception of a
    call with unsuitable arguments. *)
Inductive importer : Type := EPSG | EPSGA | ERM | ESRI | USGS | PCI.

Class SrsLib (S T : Type) : Type := {
  new_srs : S;
  import_from : importer -> list pyval -> S -> result (Z * S);
  import_from_wkt : string -> S -> S;
  is_same : S -> S -> bool;
  export_to_wkt : S -> string;
  coordinate_transformation : S -> S -> T
}.

(** [x in v] for a string [x]: substring, list membership or dict key. *)
Definition py_str_in (x : string) (v : pyval) : result bool :=
  match v with
  | PStr s => Ok (str_in x s)
  | PList l =>
      Ok (existsb (fun w => match w with
                            | PStr s => String.eqb s x
                            | _ => false
                            end) l)
  | PDict d => Ok (is_some (dict_get d x))
  | _ => Err TypeError
  end.

Section Crs.
Context {S T : Type} `{SrsLib S T}.

(** [parse_coordinate_system(body)] *)
Definition parse_coordinate_system (body : dict) : result S :=
  let crs_body := py_or (py_get body "crs") (py_get body "srs") in
  crs_body ← match crs_body with
             | PDict d => Ok d
             | _ => Err AttributeError
             end;
  crs_type ← match default (PStr "") (dict_get crs_body "type") with
             | PStr s => Ok (upper s)
             | _ => Err AttributeError
             end;
  crs_opts ← match py_get crs_body "properties" with
             | PDict p => Ok (map snd p)
             | _ => Err AttributeError
             end;
  let crs := new_srs in
  let err := (-1)%Z in
  '(err, crs) ←
    (if String.eqb crs_type "EPSG" then import_from EPSG crs_opts crs
     else if String.eqb crs_type "EPSGA" then import_from EPSGA crs_opts crs
     else if String.eqb crs_type "ERM" then import_from ERM crs_opts crs
     else if String.eqb crs_type "ESRI" then import_from ESRI crs_opts crs
     else if String.eqb crs_type "USGS" then import_from USGS crs_opts crs
     else if String.eqb crs_type "PCI" then import_from PCI crs_opts crs
     else if String.eqb crs_type "NAME" && (length crs_opts =? 1)%nat then
       opt0 ← index crs_opts 0;
       has_token ← py_str_in ":EPSG:" opt0;
       if (has_token : bool) then
         code ← match opt0 with
                | PStr s => py_int (split_last s ":")
                | _ => Err AttributeError
                end;
         import_from EPSG [PInt code] crs
       else Ok (err, crs)
     else Ok (err, crs));
  _ ← assert (err =? 0)%Z "could not identify CRS/SRS type";
  Ok crs.

(** The target SRS argument: a string, an integer code or an object. *)
Inductive srs_spec : Type :=
| SrsStr (s : string)
| SrsInt (code : Z)
| SrsObj (srs : S).

(** The normalisation of [srs_target] shared by [parse_rasters] and
    [parse_geojson]; the importer's error code is not looked at. *)
Definition resolve_srs_target (srs_target : option srs_spec)
  : result (option S) :=
  match srs_target with
  | None => Ok None
  | Some (SrsObj srs) => Ok (Some srs)
  | Some (SrsInt code) =>
      '(_, srs) ← import_from EPSG [PInt code] new_srs;
      Ok (Some srs)
  | Some (SrsStr s) =>
      code ← py_int (str_remove s "EPSG:");
      '(_, srs) ← import_from EPSG [PInt code] new_srs;
      Ok (Some srs)
  end.

End Crs.

(** The reading of a CRS descriptor: its kind is its [type] member in
    upper case (the empty string when absent), its options are the values
    of its [properties] member. *)
Definition crs_type_of (d : dict) : option string :=
  match default (PStr "") (dict_get d "type") with
  | PStr s => Some (upper s)
  | _ => None
  end.

Definition crs_opts_of (d : dict) : option (list pyval) :=
  match py_get d "properties" with
  | PDict p => Some (map snd p)
  | _ => None
  end.

Definition known_importers : list string :=
  ["EPSG"; "EPSGA"; "ERM"; "ESRI"; "USGS"; "PCI"]%string.

(** A descriptor of a recognized kind: one of the six importers, or the
    [NAME] case whose single option is a string with an embedded
    [":EPSG:"] token. *)
Definition recognized (d : dict) : bool :=
  match crs_type_of d with
  | Some ty =>
      existsb (String.eqb ty) known_importers
      || (String.eqb ty "NAME"
          && match crs_opts_of d with
             | Some [PStr s] => str_in ":EPSG:" s
             | _ => false
             end)
  | None => false
  end.

(** A descriptor whose members have the documented types: [type] absent
    or a string, [properties] a mapping, and a string as the single
    option of a [NAME] descriptor. *)
Definition well_typed (d : dict) : bool :=
  match crs_type_of d, crs_opts_of d with
  | Some ty, Some opts =>
      negb (String.eqb ty "NAME")
      || match opts with
         | [PStr _] => true
         | [_] => false
         | _ => true
         end
  | _, _ => false
  end.

(** ** The raster collaborator (gdal)

    A dataset as [parse_rasters] reads it.  [DataType] is the GDAL type
    code of a band ([GDT_Unknown] is 0, [GDT_Byte] is 1, ...). *)
Record raster_band : Type := { DataType : Z }.

Record raster_file : Type := {
  GetGeoTransform : geotransform;
  RasterCount : Z;
  GetRasterBand : Z -> option raster_band;
  RasterXSize : Z;
  RasterYSize : Z;
  GetProjectionRef : string
}.

(** The files the call can see: what [gdal.Open] returns for a path, and
    the paths for which [os.path.exists] holds. *)
Record filesystem : Type := {
  fs_open : string -> option raster_file;
  fs_exists : gset string
}.

(** [gdal.Warp(dst, ...)] writes the file [dst]. *)
Definition gdal_warp (dst : string) (fs : filesystem) : filesystem :=
  {| fs_open := fs_open fs; fs_exists := {[dst]} ∪ fs_exists fs |}.

(** One entry of [rasters_data]. *)
Record raster_data (G S : Type) : Type := {
  rd_srs : S;
  rd_geotransform : geotransform;
  rd_offset_geotransform : geotransform;
  rd_extent : list point;
  rd_skew : Q * Q;
  rd_resolution : Q * Q;
  rd_band_count : Z;
  rd_cols : Z;
  rd_rows : Z;
  rd_data_type : option Z;
  rd_local_roi : G;
  rd_target_roi : G;
  rd_file_path : string;
  rd_reproj_path : option string
}.
Arguments rd_data_type {G S} _.
Arguments rd_file_path {G S} _.
Arguments rd_target_roi {G S} _.
Arguments rd_reproj_path {G S} _.

(** [range(n)] *)
Definition py_range (n : Z) : list Z := map Z.of_nat (seq 0 (Z.to_nat n)).

(** The band loop of [parse_rasters] (lines 139-145), started with
    [raster_datatype = None]. *)
Fixpoint check_bands (rasterfile : raster_file) (idxs : list Z)
    (raster_datatype : option Z) : result (option Z) :=
  match idxs with
  | [] => Ok raster_datatype
  | raster_band_idx :: rest =>
      match GetRasterBand rasterfile (raster_band_idx + 1)%Z with
      | None => Err (AssertionError "found invalid raster band")
      | Some curr_band =>
          let raster_datatype :=
            if truthy_int raster_datatype then raster_datatype
            else Some (DataType curr_band) in
          _ ← assert (default 0%Z raster_datatype =? DataType curr_band)%Z
                "expected identical data types in all bands";
          check_bands rasterfile rest raster_datatype
      end
  end.

Section Rasters.
Context {G S T : Type} `{GeometryLib G T} `{SrsLib S T}.

(** The body of the loop over [raster_paths]. *)
Definition parse_raster (raster_path : string) (srs_target : option S)
    (reproj : bool) (fs : filesystem)
  : result (raster_data G S * filesystem) :=
  rasterfile ← match fs_open fs raster_path with
               | Some rf => Ok rf
               | None => Err (AssertionError "could not open raster data file")
               end;
  let raster_geotransform := GetGeoTransform rasterfile in
  let '(px_width, px_height) :=
    (res_x raster_geotransform, res_y raster_geotransform) in
  let '(skew_x, skew_y) :=
    (skew_x raster_geotransform, skew_y raster_geotransform) in
  let raster_extent :=
    get_geoextent raster_geotransform 0 0
      (inject_Z (RasterXSize rasterfile)) (inject_Z (RasterYSize rasterfile)) in
  let raster_curr_srs_str := GetProjectionRef rasterfile in
  raster_curr_srs ←
    (if negb (str_in "unknown" raster_curr_srs_str)
     then Ok (import_from_wkt raster_curr_srs_str new_srs)
     else match srs_target with
          | Some srs => Ok srs
          | None => Err (AssertionError
              "raster did not provide an srs, and no target EPSG srs provided")
          end);
  raster_datatype ←
    check_bands rasterfile (py_range (RasterCount rasterfile)) None;
  let local_roi := polygon raster_extent in
  let '(target_roi, reproj_path, fs) :=
    match srs_target with
    | Some tgt =>
        if negb (is_same raster_curr_srs tgt) then
          let srs_transform := coordinate_transformation raster_curr_srs tgt in
          let target_roi := transform srs_transform local_roi in
          if reproj then
            let reproj_path := (raster_path ++ ".reproj.tif")%string in
            (target_roi, Some reproj_path,
             if bool_decide (reproj_path ∈ fs_exists fs) then fs
             else gdal_warp reproj_path fs)
          else (target_roi, None, fs)
        else (local_roi, None, fs)
    | None => (local_roi, None, fs)
    end in
  Ok ({| rd_srs := raster_curr_srs;
         rd_geotransform := raster_geotransform;
         rd_offset_geotransform :=
           Geotransform 0 px_width skew_x 0 skew_y px_height;
         rd_extent := raster_extent;
         rd_skew := (skew_x, skew_y);
         rd_resolution := (px_width, px_height);
         rd_band_count := RasterCount rasterfile;
         rd_cols := RasterXSize rasterfile;
         rd_rows := RasterYSize rasterfile;
         rd_data_type := raster_datatype;
         rd_local_roi := local_roi;
         rd_target_roi := target_roi;
         rd_file_path := raster_path;
         rd_reproj_path := reproj_path |}, fs).

Fixpoint parse_rasters_loop (raster_paths : list string)
    (srs_target : option S) (reproj : bool) (fs : filesystem)
    (rasters_data : list (raster_data G S))
  : result (list (raster_data G S)) * filesystem :=
  match raster_paths with
  | [] => (Ok rasters_data, fs)
  | raster_path :: rest =>
      match parse_raster raster_path srs_target reproj fs with
      | Err e => (Err e, fs)
      | Ok (rd, fs') =>
          parse_rasters_loop rest srs_target reproj fs' (rasters_data ++ [rd])
      end
  end.

(** [parse_rasters(raster_paths, srs_target=None, reproj=False)]: the
    result and the files left behind. *)
Definition parse_rasters (raster_paths : list string)
    (srs_target : option (@srs_spec S)) (reproj : bool) (fs : filesystem)
  : result (list (raster_data G S) * G) * filesystem :=
  let raster_paths :=
    List.filter (fun r => negb (ends_with r ".reproj.tif")) raster_paths in
  match resolve_srs_target srs_target with
  | Err e => (Err e, fs)
  | Ok srs_target =>
      match parse_rasters_loop raster_paths srs_target reproj fs [] with
      | (Err e, fs') => (Err e, fs')
      | (Ok rasters_data, fs') =>
          let target_rois := map rd_target_roi rasters_data in
          (Ok (rasters_data, cascaded_union target_rois), fs')
      end
  end.

End Rasters.

(** ** Feature collections

    A feature is a mutable mapping that lives in a store: the list
    [geojson["features"]], the loop variable [feature] and the returned
    list all hold references to the same objects.  After parsing, the
    ["geometry"] entry of a feature holds a geometry object rather than a
    JSON tree. *)
Inductive fval (G : Type) : Type :=
| FVal (v : pyval)
| FGeom (g : G).
Arguments FVal {G} v.
Arguments FGeom {G} g.

Definition loc : Type := nat.
Definition feature (G : Type) : Type := list (string * fval G).
Abbreviation heap G := (gmap loc (feature G)).

(** The ["features"] member of the collection. *)
Inductive features_entry : Type :=
| FeaturesAbsent
| FeaturesOther (v : pyval)
| FeaturesList (l : list loc).

(** A collection: its ["features"] member and all its other members. *)
Record geojson : Type := {
  gj_members : dict;
  gj_features : features_entry
}.

(** A coordinate as shapely reads it. *)
Definition num_of (v : pyval) : result Q :=
  match v with
  | PInt z => Ok (inject_Z z)
  | PFloat q => Ok q
  | PBool b => Ok (if b then 1 else 0)
  | _ => Err TypeError
  end.

Definition point_of (v : pyval) : result point :=
  match v with
  | PList [x; y] => x ← num_of x; y ← num_of y; Ok (x, y)
  | _ => Err TypeError
  end.

Fixpoint points_of (l : list pyval) : result (list point) :=
  match l with
  | [] => Ok []
  | v :: l' => p ← point_of v; ps ← points_of l'; Ok (p :: ps)
  end.

(** [isinstance(c, list) and len(c) == 2] *)
Definition is_pair (c : pyval) : bool :=
  match c with
  | PList l => (length l =? 2)%nat
  | _ => false
  end.

Definition is_geom_type (s : string) : bool :=
  String.eqb s "Polygon" || String.eqb s "MultiPolygon".

Section GeoJson.
Context {G S T : Type} `{GeometryLib G T} `{SrsLib S T}.

Definition reproject (srs_transform : option T) (g : G) : G :=
  match srs_transform with
  | Some t => transform t g
  | None => g
  end.

(** Lines 205-228 up to the two assignments: the geometry object and
    the type tag that are written back into the feature. *)
Definition parse_geometry (srs_transform : option T) (feature : feature G)
  : result (G * string) :=
  geometry ← match dict_get feature "geometry" with
             | Some v => Ok v
             | None => Err (KeyError "geometry")
             end;
  geometry ← match geometry with
             | FVal (PDict d) => Ok d
             | _ => Err TypeError
             end;
  gtype ← match dict_get geometry "type" with
          | Some v => Ok v
          | None => Err (KeyError "type")
          end;
  _ ← assert (match gtype with PStr s => is_geom_type s | _ => false end)
        "unhandled raw geometry type";
  if match gtype with PStr s => String.eqb s "Polygon" | _ => false end then
    coords ← match dict_get geometry "coordinates" with
             | Some v => Ok v
             | None => Err (KeyError "coordinates")
             end;
    coords ← match coords with
             | PList l => Ok l
             | _ => Err (AssertionError "unexpected poly coords type")
             end;
    _ ← assert (length coords =? 1)%nat
          "unexpected coords embedding; should be list-of-list-of-points w/ unique ring";
    ring ← index coords 0;
    ring ← match ring with
           | PList l => Ok l
           | PStr _ | PDict _ => Err (AssertionError "unexpected poly coord format")
           | _ => Err TypeError
           end;
    _ ← assert (forallb is_pair ring && (4 <=? length ring)%nat)
          "unexpected poly coord format";
    pts ← points_of ring;
    let poly := reproject srs_transform (polygon pts) in
    Ok (poly, "Polygon"%string)
  else
    let multipoly := shape geometry in
    _ ← assert (is_valid multipoly) "found invalid input multipolygon in geojson";
    let multipoly := reproject srs_transform multipoly in
    Ok (multipoly, "MultiPolygon"%string).

(** The ROI test of line 232. *)
Definition roi_keeps (roi : G) (allow_outlying : bool) (g : G) : bool :=
  (allow_outlying && intersects roi g)
  || (negb allow_outlying && contains roi g).

Definition set_geometry (f : feature G) (g : G) : feature G :=
  dict_set f "geometry" (FGeom g).
Definition set_type (f : feature G) (t : string) : feature G :=
  dict_set f "type" (FVal (PStr t)).

(** One iteration of the loop over [features]: the store after it and
    whether the feature was appended to [kept_features]. *)
Definition parse_feature (srs_transform : option T) (roi : option G)
    (allow_outlying clip_outlying : bool) (l : loc) (h : heap G)
  : result bool * heap G :=
  match h !! l with
  | None => (Err (KeyError "feature"), h)
  | Some f =>
      match parse_geometry srs_transform f with
      | Err e => (Err e, h)
      | Ok (g, t) =>
          let f := set_type (set_geometry f g) t in
          let h := <[l := f]> h in
          match roi with
          | None => (Ok true, h)
          | Some roi =>
              if roi_keeps roi allow_outlying g then
                if clip_outlying then
                  let g := intersection roi g in
                  let f := set_geometry f g in
                  let h := <[l := f]> h in
                  if is_geom_type (geom_type g)
                  then (Ok true, <[l := set_type f (geom_type g)]> h)
                  else (Err (AssertionError
                               "unhandled intersection geometry type"), h)
                else (Ok true, <[l := set_type f (geom_type g)]> h)
              else (Ok false, h)
          end
      end
  end.

Fixpoint parse_features_loop (srs_transform : option T) (roi : option G)
    (allow_outlying clip_outlying : bool) (features : list loc)
    (kept_features : list loc) (h : heap G)
  : result (list loc) * heap G :=
  match features with
  | [] => (Ok kept_features, h)
  | l :: rest =>
      match parse_feature srs_transform roi allow_outlying clip_outlying l h with
      | (Err e, h') => (Err e, h')
      | (Ok keep, h') =>
          parse_features_loop srs_transform roi allow_outlying clip_outlying
            rest (if keep then kept_features ++ [l] else kept_features) h'
      end
  end.

(** Lines 190-202: the transformation from the collection's CRS to the
    target SRS, [None] when no target is given or both are the same. *)
Definition srs_transform_of (geojson : geojson)
    (srs_target : option (@srs_spec S)) : result (option T) :=
  srs_origin ← parse_coordinate_system (gj_members geojson);
  srs_target ← resolve_srs_target srs_target;
  Ok (match srs_target with
      | Some tgt =>
          if negb (is_same srs_origin tgt)
          then Some (coordinate_transformation srs_origin tgt)
          else None
      | None => None
      end).

(** [parse_geojson(geojson, srs_target=None, roi=None,
    allow_outlying=False, clip_outlying=False)]: the returned list of
    references and the store the call leaves. *)
Definition parse_geojson (geojson : geojson)
    (srs_target : option (@srs_spec S)) (roi : option G)
    (allow_outlying clip_outlying : bool) (h : heap G)
  : result (list loc) * heap G :=
  match gj_features geojson with
  | FeaturesList features =>
      match srs_transform_of geojson srs_target with
      | Err e => (Err e, h)
      | Ok srs_transform =>
          parse_features_loop srs_transform roi allow_outlying clip_outlying
            features [] h
      end
  | _ => (Err (AssertionError "unexpected geojson format"), h)
  end.

(** *** What a successful call leaves *)

(** Whether the feature stored at [l] passes the ROI test. *)
Definition keeps (srs_transform : option T) (roi : option G)
    (allow_outlying : bool) (h : heap G) (l : loc) : bool :=
  match h !! l with
  | Some f =>
      match parse_geometry srs_transform f, roi with
      | Ok (g, _), Some roi => roi_keeps roi allow_outlying g
      | Ok _, None => true
      | Err _, _ => false
      end
  | None => false
  end.

(** The geometry object a feature holds in the end: the parsed one, or
    its clip for a kept feature under [clip_outlying]. *)
Definition final_geometry (roi : option G)
    (allow_outlying clip_outlying : bool) (g : G) : G :=
  match roi with
  | Some roi =>
      if roi_keeps roi allow_outlying g && clip_outlying
      then intersection roi g else g
  | None => g
  end.

(** The type tag a feature holds in the end: the raw tag [t], or the
    type of the final geometry for a feature kept by the ROI test. *)
Definition final_type (roi : option G)
    (allow_outlying clip_outlying : bool) (g : G) (t : string) : string :=
  match roi with
  | Some roi =>
      if roi_keeps roi allow_outlying g
      then geom_type (final_geometry (Some roi) allow_outlying clip_outlying g)
      else t
  | None => t
  end.

(** The feature after the two (or four) assignments of an iteration. *)
Definition updated_feature (roi : option G)
    (allow_outlying clip_outlying : bool) (f : feature G) (g : G)
    (t : string) : feature G :=
  let f := set_type (set_geometry f g) t in
  match roi with
  | Some roi =>
      if roi_keeps roi allow_outlying g then
        if clip_outlying
        then set_type (set_geometry f (intersection roi g))
                      (geom_type (intersection roi g))
        else set_type f (geom_type g)
      else f
  | None => f
  end.

End GeoJson.

(** ** An executable instance of the collaborators

    Geometries are axis-aligned boxes carrying their type tag, spatial
    references are EPSG codes, and a coordinate transformation is a
    translation.  The instance makes every function above runnable. *)
Module BoxModel.

Record box : Type := Box {
  minx : Q; miny : Q; maxx : Q; maxy : Q; tag : string
}.

Definition box_of_points (pts : list point) (tag : string) : box :=
  match pts with
  | [] => Box 0 0 0 0 tag
  | p :: ps =>
      fold_left
        (fun b q => Box (Qmin (minx b) (fst q)) (Qmin (miny b) (snd q))
                        (Qmax (maxx b) (fst q)) (Qmax (maxy b) (snd q)) tag)
        ps (Box (fst p) (snd p) (fst p) (snd p) tag)
  end.

Fixpoint collect (v : pyval) : list point :=
  match v with
  | PList l =>
      match point_of v with
      | Ok p => [p]
      | Err _ => flat_map collect l
      end
  | _ => []
  end.

Definition box_intersects (a b : box) : bool :=
  Qle_bool (minx a) (maxx b) && Qle_bool (minx b) (maxx a)
  && Qle_bool (miny a) (maxy b) && Qle_bool (miny b) (maxy a).

Definition box_contains (a b : box) : bool :=
  Qle_bool (minx a) (minx b) && Qle_bool (maxx b) (maxx a)
  && Qle_bool (miny a) (miny b) && Qle_bool (maxy b) (maxy a).

Definition box_intersection (a b : box) : box :=
  if box_intersects a b then
    Box (Qmax (minx a) (minx b)) (Qmax (miny a) (miny b))
        (Qmin (maxx a) (maxx b)) (Qmin (maxy a) (maxy b)) (tag b)
  else Box 0 0 0 0 "GeometryCollection".

(** A box is empty when it is inverted; a box reduced to a line or a
    point is a geometry of zero area that is not empty. *)
Definition box_is_empty (b : box) : bool :=
  negb (Qle_bool (minx b) (maxx b) && Qle_bool (miny b) (maxy b)).

Definition empty_box (tag : string) : box := Box 1 1 0 0 tag.

(** [buffer] moves every side by [r]; what is left without area is the
    empty geometry. *)
Definition box_buffer (b : box) (r : Q) : box :=
  if box_is_empty b then b
  else
    let b' := Box (minx b - r) (miny b - r) (maxx b + r) (maxy b + r) (tag b) in
    if Qle_bool (maxx b') (minx b') || Qle_bool (maxy b') (miny b')
    then empty_box (tag b)
    else b'.

Definition box_union (l : list box) : box :=
  box_of_points
    (flat_map (fun b => [(minx b, miny b); (maxx b, maxy b)]) l)
    "Polygon".

#[global] Instance box_geometry : GeometryLib box (Q * Q) := {|
  bounds b :=
    if box_is_empty b then None
    else Some (minx b, miny b, maxx b, maxy b);
  centroid b :=
    if box_is_empty b then None
    else Some ((minx b + maxx b) / 2, (miny b + maxy b) / 2);
  buffer := box_buffer;
  polygon pts := box_of_points pts "Polygon";
  geom_type := tag;
  is_valid b := Qle_bool (minx b) (maxx b) && Qle_bool (miny b) (maxy b);
  intersects := box_intersects;
  contains := box_contains;
  intersection := box_intersection;
  transform t b :=
    Box (minx b + fst t) (miny b + snd t) (maxx b + fst t) (maxy b + snd t)
        (tag b);
  shape d := box_of_points (collect (py_get d "coordinates")) "MultiPolygon";
  cascaded_union := box_union
|}.

(** Spatial references: an EPSG code, or nothing imported yet. *)
Definition epsg : Type := option Z.

#[global] Instance epsg_srs : SrsLib epsg (Q * Q) := {|
  new_srs := None;
  import_from k args srs :=
    match args with
    | [PInt code] =>
        if (0 <? code)%Z then Ok (0%Z, Some code) else Ok (6%Z, srs)
    | _ => Err TypeError
    end;
  import_from_wkt w srs := Some (Z.of_nat (String.length w));
  is_same a b :=
    match a, b with
    | Some x, Some y => (x =? y)%Z
    | None, None => true
    | _, _ => false
    end;
  export_to_wkt srs := ""%string;
  coordinate_transformation a b :=
    (inject_Z (default 0%Z b - default 0%Z a), 0)
|}.

End BoxModel.

(** ** Sample inputs *)
Module Samples.

(** The data type of band [i] (counted from 0), 0 when there is none. *)
Definition type_at (rasterfile : raster_file) (i : Z) : Z :=
  match GetRasterBand rasterfile (i + 1)%Z with
  | Some b => DataType b
  | None => 0%Z
  end.

(** A 100 x 100 raster whose bands have the given data types. *)
Definition raster_with_bands (types : list Z) : raster_file := {|
  GetGeoTransform := Geotransform 500000 10 0 4000000 0 (-10);
  RasterCount := Z.of_nat (length types);
  GetRasterBand i :=
    if (1 <=? i)%Z then
      option_map (fun t => {| DataType := t |})
                 (nth_error types (Z.to_nat (i - 1)))
    else None;
  RasterXSize := 100;
  RasterYSize := 100;
  GetProjectionRef := "PROJCS[WGS 84 / UTM zone 18N]"
|}.

(** A file system holding one raster, at [a.tif]. *)
Definition single_raster (rasterfile : raster_file) : filesystem := {|
  fs_open p := if String.eqb p "a.tif" then Some rasterfile else None;
  fs_exists := {["a.tif"%string]}
|}.

(** A GeoJSON feature whose geometry is the square polygon with the
    given corners. *)
Definition square (x0 y0 x1 y1 : Z) : feature BoxModel.box :=
  let pt x y := PList [PInt x; PInt y] in
  [ ("type"%string, FVal (PStr "Feature"));
    ("geometry"%string,
     FVal (PDict
       [ ("type"%string, PStr "Polygon");
         ("coordinates"%string,
          PList [PList [pt x0 y0; pt x1 y0; pt x1 y1; pt x0 y1; pt x0 y0]]) ]));
    ("properties"%string, FVal (PDict [("id"%string, PInt x0)])) ].

(** Three features: inside, across the boundary of, and outside the
    region [sample_roi]. *)
Definition sample_heap : heap BoxModel.box :=
  <[0%nat := square 2 2 4 4]>
    (<[1%nat := square 8 8 12 12]> (<[2%nat := square 20 20 22 22]> ∅)).

Definition sample_collection : geojson := {|
  gj_members :=
    [ ("type"%string, PStr "FeatureCollection");
      ("crs"%string,
       PDict [ ("type"%string, PStr "EPSG");
               ("properties"%string, PDict [("code"%string, PInt 4326)]) ]) ];
  gj_features := FeaturesList [0%nat; 1%nat; 2%nat]
|}.

Definition sample_roi : BoxModel.box := BoxModel.Box 0 0 10 10 "Polygon".

End Samples.

(** ** The rest of the module *)

(** [transform.TransformPoint(x, y)] of a coordinate transformation: the
    transformed [(x, y, z)]. *)
Class PointTransform (T : Type) : Type := {
  transform_point : T -> Q -> Q -> Q * Q * Q
}.

#[global] Instance box_point_transform : PointTransform (Q * Q) := {|
  transform_point t x y := (x + fst t, y + snd t, 0)
|}.

(** The loop of [reproject_coords] over [coords], appending to
    [trans_coords]. *)
Fixpoint reproject_coords_loop {T : Type} `{PointTransform T} (transform : T)
    (coords : list point) (trans_coords : list point) : list point :=
  match coords with
  | [] => trans_coords
  | (x, y) :: rest =>
      let '(x, y, z) := transform_point transform x y in
      reproject_coords_loop transform rest (trans_coords ++ [(x, y)])
  end.

(** [reproject_coords(coords, src_srs, tgt_srs)] *)
Definition reproject_coords {S T : Type} `{SrsLib S T} `{PointTransform T}
    (coords : list point) (src_srs tgt_srs : S) : list point :=
  let trans_coords := [] in
  let transform := coordinate_transformation src_srs tgt_srs in
  reproject_coords_loop transform coords trans_coords.

(** The element types of numpy arrays and of GDAL bands that the two
    conversion tables mention. *)
Inductive numpy_type : Type :=
| np_uint8 | np_int8 | np_uint16 | np_int16 | np_uint32 | np_int32
| np_float32 | np_float64 | np_complex64 | np_complex128.

Inductive gdal_type : Type :=
| GDT_Unknown | GDT_Byte | GDT_UInt16 | GDT_Int16 | GDT_UInt32 | GDT_Int32
| GDT_Float32 | GDT_Float64 | GDT_CInt16 | GDT_CInt32 | GDT_CFloat32
| GDT_CFloat64.

#[global] Instance numpy_type_eq_dec : EqDecision numpy_type.
Proof. solve_decision. Defined.

#[global] Instance gdal_type_eq_dec : EqDecision gdal_type.
Proof. solve_decision. Defined.

Definition NUMPY2GDAL_TYPE_CONV : list (numpy_type * gdal_type) :=
  [ (np_uint8, GDT_Byte);
    (np_int8, GDT_Byte);
    (np_uint16, GDT_UInt16);
    (np_int16, GDT_Int16);
    (np_uint32, GDT_UInt32);
    (np_int32, GDT_Int32);
    (np_float32, GDT_Float32);
    (np_float64, GDT_Float64);
    (np_complex64, GDT_CFloat32);
    (np_complex128, GDT_CFloat64) ].

Definition GDAL2NUMPY_TYPE_CONV : list (gdal_type * numpy_type) :=
  [ (GDT_Byte, np_uint8);
    (GDT_UInt16, np_uint16);
    (GDT_Int16, np_int16);
    (GDT_UInt32, np_uint32);
    (GDT_Int32, np_int32);
    (GDT_Float32, np_float32);
    (GDT_Float64, np_float64);
    (GDT_CInt16, np_complex64);
    (GDT_CInt32, np_complex64);
    (GDT_CFloat32, np_complex64);
    (GDT_CFloat64, np_complex128) ].

(** [table[key]], [None] standing for the [KeyError]. *)
Fixpoint table_get {K V : Type} `{EqDecision K} (table : list (K * V))
    (key : K) : option V :=
  match table with
  | [] => None
  | (k, v) :: rest => if decide (k = key) then Some v else table_get rest key
  end.

(** The record [parse_rasters] builds for one path, given what
    [gdal.Open] returned for it: everything in the loop body but the
    write of the reprojected file. *)
Definition raster_record {G S T : Type} `{GeometryLib G T} `{SrsLib S T}
    (raster_path : string) (srs_target : option S) (reproj : bool)
    (opened : option raster_file) : result (raster_data G S) :=
  rasterfile ← match opened with
               | Some rf => Ok rf
               | None => Err (AssertionError "could not open raster data file")
               end;
  let gt := GetGeoTransform rasterfile in
  let raster_extent :=
    get_geoextent gt 0 0
      (inject_Z (RasterXSize rasterfile)) (inject_Z (RasterYSize rasterfile)) in
  raster_curr_srs ←
    (if negb (str_in "unknown" (GetProjectionRef rasterfile))
     then Ok (import_from_wkt (GetProjectionRef rasterfile) new_srs)
     else match srs_target with
          | Some srs => Ok srs
          | None => Err (AssertionError
              "raster did not provide an srs, and no target EPSG srs provided")
          end);
  raster_datatype ←
    check_bands rasterfile (py_range (RasterCount rasterfile)) None;
  let local_roi := polygon raster_extent in
  let reprojected :=
    match srs_target with
    | Some tgt => negb (is_same raster_curr_srs tgt)
    | None => false
    end in
  Ok {| rd_srs := raster_curr_srs;
        rd_geotransform := gt;
        rd_offset_geotransform :=
          Geotransform 0 (res_x gt) (skew_x gt) 0 (skew_y gt) (res_y gt);
        rd_extent := raster_extent;
        rd_skew := (skew_x gt, skew_y gt);
        rd_resolution := (res_x gt, res_y gt);
        rd_band_count := RasterCount rasterfile;
        rd_cols := RasterXSize rasterfile;
        rd_rows := RasterYSize rasterfile;
        rd_data_type := raster_datatype;
        rd_local_roi := local_roi;
        rd_target_roi :=
          match srs_target with
          | Some tgt =>
              if reprojected
              then transform (coordinate_transformation raster_curr_srs tgt)
                             local_roi
              else local_roi
          | None => local_roi
          end;
        rd_file_path := raster_path;
        rd_reproj_path :=
          if reprojected && reproj
          then Some (raster_path ++ ".reproj.tif")%string else None |}.

(** The files after the loop body has handled a record. *)
Definition after_reproj {G S : Type} (rd : raster_data G S) (fs : filesystem)
  : filesystem :=
  match rd_reproj_path rd with
  | Some q => if bool_decide (q ∈ fs_exists fs) then fs else gdal_warp q fs
  | None => fs
  end.

(** The paths [parse_rasters] keeps: those that do not name a
    reprojection. *)
Definition not_reproj (r : string) : bool := negb (ends_with r ".reproj.tif").

(** A file system holding two rasters, [a.tif] and [b.tif], and an
    earlier reprojection of the first one. *)
Definition sample_files : filesystem := {|
  fs_open p :=
    if String.eqb p "a.tif" then Some (Samples.raster_with_bands [3; 3; 3]%Z)
    else if String.eqb p "b.tif" then Some (Samples.raster_with_bands [1]%Z)
    else None;
  fs_exists := {["a.tif"%string; "a.tif.reproj.tif"%string; "b.tif"%string]}
|}.

Definition sample_paths : list string :=
  ["a.tif"; "a.tif.reproj.tif"; "b.tif"]%string.

(** The importer a CRS kind (in upper case) selects. *)
Definition importer_of_name (crs_type : string) : option importer :=
  if String.eqb crs_type "EPSG" then Some EPSG
  else if String.eqb crs_type "EPSGA" then Some EPSGA
  else if String.eqb crs_type "ERM" then Some ERM
  else if String.eqb crs_type "ESRI" then Some ESRI
  else if String.eqb crs_type "USGS" then Some USGS
  else if String.eqb crs_type "PCI" then Some PCI
  else None.

(** A feature with a point geometry, and the sample collection with it
    in second place. *)
Definition point_feature : feature BoxModel.box :=
  [ ("type"%string, FVal (PStr "Feature"));
    ("geometry"%string,
     FVal (PDict [ ("type"%string, PStr "Point");
                   ("coordinates"%string, PList [PInt 1; PInt 2]) ])) ].

Definition sample_heap_with_point : heap BoxModel.box :=
  <[3%nat := point_feature]> Samples.sample_heap.

Definition sample_collection_with_point : geojson := {|
  gj_members := gj_members Samples.sample_collection;
  gj_features := FeaturesList [0%nat; 3%nat; 1%nat]
|}.

(** ** Decimal numerals *)

Definition is_digit (d : nat) : Prop := (d < 10)%nat.

(** The character of the decimal digit [d]. *)
Definition digit_char (d : nat) : ascii := ascii_of_nat (48 + d).

(** The numeral with the digits [ds], most significant first. *)
Fixpoint digits_string (ds : list nat) : string :=
  match ds with
  | [] => EmptyString
  | d :: ds' => String (digit_char d) (digits_string ds')
  end.

(** The number the digits [ds] denote after the prefix of value [acc]. *)
Fixpoint digits_value (ds : list nat) (acc : Z) : Z :=
  match ds with
  | [] => acc
  | d :: ds' => digits_value ds' (10 * acc + Z.of_nat d)
  end.

(** * Properties *)

(** ** Affine transform *)

Lemma affine_of_determinant (gt : geotransform) :
  Affine.determinant (affine_of gt) = gt_det gt.
Proof. reflexivity. Qed.

Lemma invert_degenerate (gt : geotransform) :
  gt_det gt == 0 -> Affine.invert (affine_of gt) = Err TransformNotInvertibleError.
Proof.
  intros Hd. unfold Affine.invert, Affine.is_degenerate.
  rewrite affine_of_determinant.
  apply Qeq_bool_iff in Hd. now rewrite Hd.
Qed.

Lemma invert_regular (gt : geotransform) :
  ~ gt_det gt == 0 ->
  exists m, Affine.invert (affine_of gt) = Ok m
    /\ m = (let idet := 1 / gt_det gt in
            let ra := res_y gt * idet in
            let rb := - skew_x gt * idet in
            let rd := - skew_y gt * idet in
            let re := res_x gt * idet in
            Affine.mk ra rb (- orig_x gt * ra - orig_y gt * rb)
                      rd re (- orig_x gt * rd - orig_y gt * re)).
Proof.
  intros Hd. unfold Affine.invert, Affine.is_degenerate.
  rewrite affine_of_determinant.
  destruct (Qeq_bool (gt_det gt) 0) eqn:E.
  - apply Qeq_bool_iff in E. contradiction.
  - eexists. split; reflexivity.
Qed.

(** The inverse map is defined exactly on the transforms whose determinant
    is not zero. *)
Lemma get_pxcoord_defined (gt : geotransform) (x y : Q) :
  ~ gt_det gt == 0 -> exists p, get_pxcoord gt x y = Ok p.
Proof.
  intros Hd. destruct (invert_regular gt Hd) as (m & Hm & _).
  unfold get_pxcoord. rewrite Hm. simpl. eauto.
Qed.

Lemma get_pxcoord_undefined (gt : geotransform) (x y : Q) :
  gt_det gt == 0 -> get_pxcoord gt x y = Err TransformNotInvertibleError.
Proof.
  intros Hd. unfold get_pxcoord. now rewrite invert_degenerate.
Qed.

(** The forward map is the affine formula of the source comment. *)
Lemma get_geocoord_formula (gt : geotransform) (x y : Q) :
  get_geocoord gt x y =
  (x * res_x gt + y * skew_x gt + orig_x gt,
   x * skew_y gt + y * res_y gt + orig_y gt).
Proof. reflexivity. Qed.

(** C2, as amended: for every geotransform whose determinant
    [res_x * res_y - skew_x * skew_y] is not zero and every pixel
    coordinate [(c, r)], [get_pxcoord] applied to [get_geocoord gt c r]
    returns, and returns [(c, r)] (over exact arithmetic). *)
Theorem roundtrip_pixel_geo_pixel (gt : geotransform) (c r : Q) :
  ~ gt_det gt == 0 ->
  exists p,
    get_pxcoord gt (fst (get_geocoord gt c r)) (snd (get_geocoord gt c r)) = Ok p
    /\ pt_eq p (c, r).
Proof.
  intros Hd. destruct (invert_regular gt Hd) as (m & Hm & Em).
  unfold get_pxcoord. rewrite Hm. simpl. eexists. split; [reflexivity|].
  subst m. unfold gt_det in *. destruct gt as [ox rx sx oy sy ry].
  unfold pt_eq; simpl in *. split; field; exact Hd.
Qed.

Lemma roundtrip_pixel_geo_pixel_witness :
  ~ gt_det (Geotransform 500000 10 0 4000000 0 (-10)) == 0
  /\ exists p,
       get_pxcoord (Geotransform 500000 10 0 4000000 0 (-10))
         (fst (get_geocoord (Geotransform 500000 10 0 4000000 0 (-10)) 3 7))
         (snd (get_geocoord (Geotransform 500000 10 0 4000000 0 (-10)) 3 7))
       = Ok p /\ pt_eq p (3, 7).
Proof.
  assert (Hd : ~ gt_det (Geotransform 500000 10 0 4000000 0 (-10)) == 0)
    by (vm_compute; discriminate).
  split; [exact Hd|].
  exact (roundtrip_pixel_geo_pixel _ 3 7 Hd).
Defined.

(** C2, as stated, fails: both resolutions of the transform
    [(0, 1, 1, 0, 1, 1)] are nonzero, its determinant is zero, and the
    inverse map raises instead of returning the pixel. *)
Lemma roundtrip_nonzero_resolution_counterexample :
  let gt := Geotransform 0 1 1 0 1 1 in
  ~ res_x gt == 0 /\ ~ res_y gt == 0
  /\ get_pxcoord gt (fst (get_geocoord gt 1 2)) (snd (get_geocoord gt 1 2))
     = Err TransformNotInvertibleError
  /\ ~ exists p,
       get_pxcoord gt (fst (get_geocoord gt 1 2)) (snd (get_geocoord gt 1 2))
       = Ok p /\ pt_eq p (1, 2).
Proof.
  simpl. repeat split; try (vm_compute; discriminate).
  intros (p & Hp & _). vm_compute in Hp. discriminate.
Qed.

(** With no skew, nonzero resolutions do make the transform invertible. *)
Lemma unskewed_nonzero_resolution_invertible (gt : geotransform) :
  skew_x gt == 0 -> skew_y gt == 0 ->
  ~ res_x gt == 0 -> ~ res_y gt == 0 -> ~ gt_det gt == 0.
Proof.
  intros Hsx Hsy Hx Hy Hd. unfold gt_det in Hd.
  rewrite Hsx in Hd.
  assert (Hm : res_x gt * res_y gt == 0) by (rewrite <- Hd; ring).
  apply Qmult_integral in Hm. tauto.
Qed.

(** C3: [get_geoextent] returns the images of the four pixel corners
    [(col,row)], [(col,row+height)], [(col+width,row+height)],
    [(col+width,row)] under the forward affine map, in the order
    [tl; bl; br; tr]; and the three values of the example for the
    transform [(500000, 10, 0, 4000000, 0, -10)]. *)
Theorem get_geoextent_corners (gt : geotransform) (col row width height : Q) :
  get_geoextent gt col row width height =
    [ (col * res_x gt + row * skew_x gt + orig_x gt,
       col * skew_y gt + row * res_y gt + orig_y gt);
      (col * res_x gt + (row + height) * skew_x gt + orig_x gt,
       col * skew_y gt + (row + height) * res_y gt + orig_y gt);
      ((col + width) * res_x gt + (row + height) * skew_x gt + orig_x gt,
       (col + width) * skew_y gt + (row + height) * res_y gt + orig_y gt);
      ((col + width) * res_x gt + row * skew_x gt + orig_x gt,
       (col + width) * skew_y gt + row * res_y gt + orig_y gt) ]
  /\ get_geoextent gt col row width height =
       [ get_geocoord gt col row; get_geocoord gt col (row + height);
         get_geocoord gt (col + width) (row + height);
         get_geocoord gt (col + width) row ]
  /\ get_geocoord (Geotransform 500000 10 0 4000000 0 (-10)) 0 0
       = (500000, 4000000)
  /\ get_geocoord (Geotransform 500000 10 0 4000000 0 (-10)) 100 100
       = (501000, 3999000)
  /\ get_geoextent (Geotransform 500000 10 0 4000000 0 (-10)) 0 0 100 100
       = [ (500000, 4000000); (500000, 3999000);
           (501000, 3999000); (501000, 4000000) ].
Proof. repeat split; reflexivity. Qed.

(** ** Bounding boxes *)

Lemma Qmin_le_Qmax (x y : Q) : Qmin x y <= Qmax x y.
Proof.
  destruct (Q.min_spec x y) as [[H1 E1]|[H1 E1]];
  destruct (Q.max_spec x y) as [[H2 E2]|[H2 E2]]; rewrite E1, E2; lra.
Qed.

Lemma Qmin_centered (c o : Q) : Qmin (c - o) (c + o) == c - Qabs o.
Proof.
  destruct (Q.min_spec (c - o) (c + o)) as [[H1 E1]|[H1 E1]]; rewrite E1.
  - rewrite Qabs_pos; lra.
  - rewrite Qabs_neg; lra.
Qed.

Lemma Qmin_centered' (c o : Q) : Qmin (c + o) (c - o) == c - Qabs o.
Proof. rewrite Q.min_comm. apply Qmin_centered. Qed.

Lemma Qmax_centered (c o : Q) : Qmax (c - o) (c + o) == c + Qabs o.
Proof.
  destruct (Q.max_spec (c - o) (c + o)) as [[H1 E1]|[H1 E1]]; rewrite E1.
  - rewrite Qabs_pos; lra.
  - rewrite Qabs_neg; lra.
Qed.

Lemma Qmax_centered' (c o : Q) : Qmax (c + o) (c - o) == c + Qabs o.
Proof. rewrite Q.max_comm. apply Qmax_centered. Qed.

Section BboxProps.
Context {G T : Type} `{GeometryLib G T}.

(** What the function returns on each shape of [offsets]. *)
Lemma get_feature_bbox_natural (geom : G) (offsets : option (list Q)) :
  truthy_seq offsets = false ->
  get_feature_bbox geom offsets =
    ('(b0, b1, b2, b3) ← coords (bounds geom);
     Ok ((Qmin b0 b2, Qmin b3 b1), (Qmax b0 b2, Qmax b3 b1))).
Proof.
  intros Ht. unfold get_feature_bbox. rewrite Ht. simpl.
  destruct (bounds geom) as [[[[b0 b1] b2] b3]|]; reflexivity.
Qed.

Lemma get_feature_bbox_offsets (geom : G) (dx dy : Q) :
  get_feature_bbox geom (Some [dx; dy]) =
    (c ← coords (centroid geom);
     Ok ((Qmin (fst c - dx) (fst c + dx), Qmin (snd c + dy) (snd c - dy)),
         (Qmax (fst c - dx) (fst c + dx), Qmax (snd c + dy) (snd c - dy)))).
Proof.
  unfold get_feature_bbox. simpl.
  destruct (centroid geom) as [c|]; reflexivity.
Qed.

Lemma get_feature_bbox_bad_offsets (geom : G) (o : Q) (rest : list Q) :
  length (o :: rest) <> 2%nat ->
  get_feature_bbox geom (Some (o :: rest)) =
    Err (AssertionError "offset param must be 2d").
Proof.
  intros Hl. destruct rest as [|o' [|o'' rest]]; try reflexivity.
  now contradict Hl.
Qed.

(** C8, as amended: a given, non-empty [offsets] whose length is not 2
    raises the invalid-offset error; a 2-element [offsets] centres a box
    of half-widths [(|dx|, |dy|)] on the centroid; an absent or empty
    [offsets] gives the corners [(min x, min y)], [(max x, max y)] of the
    geometry's bounds.  An empty geometry, which has neither a centroid
    nor bounds, makes the last two cases fail. *)
Theorem get_feature_bbox_cases (geom : G) :
  (forall o rest, length (o :: rest) <> 2%nat ->
     get_feature_bbox geom (Some (o :: rest)) =
       Err (AssertionError "offset param must be 2d"))
  /\ (forall dx dy,
        match centroid geom with
        | Some c =>
            exists tl br,
              get_feature_bbox geom (Some [dx; dy]) = Ok (tl, br)
              /\ pt_eq tl (fst c - Qabs dx, snd c - Qabs dy)
              /\ pt_eq br (fst c + Qabs dx, snd c + Qabs dy)
        | None => is_ok (get_feature_bbox geom (Some [dx; dy])) = false
        end)
  /\ (forall offsets, offsets = None \/ offsets = Some [] ->
        match bounds geom with
        | Some (minx, miny, maxx, maxy) =>
            exists tl br,
              get_feature_bbox geom offsets = Ok (tl, br)
              /\ tl = (Qmin minx maxx, Qmin maxy miny)
              /\ br = (Qmax minx maxx, Qmax maxy miny)
              /\ (minx <= maxx -> miny <= maxy ->
                  pt_eq tl (minx, miny) /\ pt_eq br (maxx, maxy))
        | None => is_ok (get_feature_bbox geom offsets) = false
        end).
Proof.
  split; [|split].
  - intros o rest Hl. now apply get_feature_bbox_bad_offsets.
  - intros dx dy. rewrite get_feature_bbox_offsets.
    destruct (centroid geom) as [c|]; [|reflexivity].
    cbn [coords mbind result_bind].
    do 2 eexists. split; [reflexivity|].
    unfold pt_eq; cbn [fst snd]. repeat split.
    + apply Qmin_centered.
    + apply Qmin_centered'.
    + apply Qmax_centered.
    + apply Qmax_centered'.
  - intros offsets Ho.
    rewrite get_feature_bbox_natural by (destruct Ho; subst; reflexivity).
    destruct (bounds geom) as [[[[b0 b1] b2] b3]|]; [|reflexivity].
    cbn [coords mbind result_bind].
    do 2 eexists. split; [reflexivity|]. repeat split; cbn [fst snd].
    + rewrite Q.min_l; [reflexivity | assumption].
    + rewrite Q.min_r; [reflexivity | assumption].
    + rewrite Q.max_r; [reflexivity | assumption].
    + rewrite Q.max_l; [reflexivity | assumption].
Qed.

(** C9: whenever [get_feature_bbox] returns, the first corner is below
    the second one in both coordinates. *)
Theorem get_feature_bbox_sorted (geom : G) (offsets : option (list Q))
    (tl br : point) :
  get_feature_bbox geom offsets = Ok (tl, br) ->
  fst tl <= fst br /\ snd tl <= snd br.
Proof.
  unfold get_feature_bbox.
  destruct (truthy_seq offsets && _); [discriminate|]. cbn [mbind result_bind].
  destruct (if truthy_seq offsets then _ else _) as [[p q]|e];
    [|discriminate].
  cbn [mbind result_bind]. intros [= <- <-]. cbn [fst snd].
  split; apply Qmin_le_Qmax.
Qed.

(** The call is accepted exactly when [offsets] is absent or empty and
    the geometry has bounds, or [offsets] has length 2 and the geometry
    has a centroid. *)
Lemma get_feature_bbox_accepts (geom : G) (offsets : option (list Q)) :
  is_ok (get_feature_bbox geom offsets) =
    match offsets with
    | Some ((_ :: _) as l) => (length l =? 2)%nat && is_some (centroid geom)
    | _ => is_some (bounds geom)
    end.
Proof.
  destruct offsets as [[|o [|o' [|o'' rest]]]|].
  - rewrite get_feature_bbox_natural by reflexivity.
    now destruct (bounds geom) as [[[[b0 b1] b2] b3]|].
  - rewrite get_feature_bbox_bad_offsets by (cbn; lia). reflexivity.
  - rewrite get_feature_bbox_offsets. now destruct (centroid geom).
  - rewrite get_feature_bbox_bad_offsets by (cbn; lia). reflexivity.
  - rewrite get_feature_bbox_natural by reflexivity.
    now destruct (bounds geom) as [[[[b0 b1] b2] b3]|].
Qed.

End BboxProps.

Lemma get_feature_bbox_sorted_witness :
  exists tl br,
    get_feature_bbox (BoxModel.Box 0 0 4 2 "Polygon") (Some [-3; 5])
      = Ok (tl, br)
    /\ fst tl <= fst br /\ snd tl <= snd br.
Proof.
  do 2 eexists.
  assert (E : get_feature_bbox (BoxModel.Box 0 0 4 2 "Polygon") (Some [-3; 5])
              = Ok (_, _)) by reflexivity.
  split; [exact E|].
  exact (get_feature_bbox_sorted _ _ _ _ E).
Defined.

(** C8, as stated, fails for offsets of length 0: the empty sequence is
    taken as no offsets and the natural bounding box is returned. *)
Lemma get_feature_bbox_empty_offsets_counterexample :
  get_feature_bbox (BoxModel.Box 0 0 4 2 "Polygon") (Some [])
    = Ok ((0, 0), (4, 2))
  /\ length (@nil Q) <> 2%nat.
Proof. split; [reflexivity | discriminate]. Qed.

Lemma get_feature_bbox_cases_witness :
  get_feature_bbox (BoxModel.Box 0 0 4 2 "Polygon") (Some [1])
    = Err (AssertionError "offset param must be 2d").
Proof.
  apply (proj1 (get_feature_bbox_cases (BoxModel.Box 0 0 4 2 "Polygon")) 1 []).
  simpl. lia.
Defined.

(** ** Crop windows *)

Section RoiProps.
Context {G T : Type} `{GeometryLib G T}.

(** The function with a nonzero pixel crop size, step by step. *)
Lemma get_feature_roi_fixed_crop_eq (geom : G) (px_size skew : Q * Q)
    (roi_buffer : option Q) (crop : Z) :
  crop <> 0%Z ->
  get_feature_roi geom px_size skew roi_buffer (Some crop) None =
    ('(roi_tl, roi_br) ←
       get_feature_bbox (buffered geom roi_buffer)
         (Some (crop_offsets px_size skew crop));
     real ← get_pxcoord (offset_geotransform px_size skew)
              (fst roi_tl) (snd roi_tl);
     let tl_px := (Qfloor (fst real), Qfloor (snd real)) in
     let br_px := (fst tl_px + crop, snd tl_px + crop)%Z in
     let roi_tl := get_geocoord (offset_geotransform px_size skew)
                     (inject_Z (fst tl_px)) (inject_Z (snd tl_px)) in
     let roi_br := get_geocoord (offset_geotransform px_size skew)
                     (inject_Z (fst br_px)) (inject_Z (snd br_px)) in
     Ok (polygon [roi_tl; (fst roi_br, snd roi_tl); roi_br;
                  (fst roi_tl, snd roi_br)],
         roi_tl, roi_br, crop, crop)).
Proof.
  intros Hc. unfold get_feature_roi.
  assert (Ht : truthy_int (Some crop) = true)
    by (cbn; now apply negb_true_iff, Z.eqb_neq).
  rewrite Ht. cbn -[get_feature_bbox get_pxcoord get_geocoord Qabs].
  unfold crop_offsets, buffered.
  destruct (get_geocoord _ (inject_Z crop) (inject_Z crop)) as [xo yo].
  cbn -[get_feature_bbox get_pxcoord get_geocoord Qabs].
  destruct (get_feature_bbox _ _) as [[tl br]|e]; [|reflexivity].
  cbn -[get_pxcoord get_geocoord].
  destruct (get_pxcoord _ _ _) as [real|e]; reflexivity.
Qed.

(** C1, as amended: with a nonzero pixel crop size [crop], no real-size
    crop, an invertible local transform and a geometry that is not empty
    after the optional buffering (it has a centroid), [get_feature_roi]
    returns; the returned width and height are both [crop], and the
    returned corners are the geo images of the floored top-left pixel
    [tl_px] and of [tl_px + (crop, crop)]. *)
Theorem get_feature_roi_fixed_crop (geom : G) (px_size skew : Q * Q)
    (roi_buffer : option Q) (crop : Z) (c : point) :
  crop <> 0%Z ->
  ~ gt_det (offset_geotransform px_size skew) == 0 ->
  centroid (buffered geom roi_buffer) = Some c ->
  exists roi roi_tl roi_br bbox_tl bbox_br real,
    get_feature_roi geom px_size skew roi_buffer (Some crop) None
      = Ok (roi, roi_tl, roi_br, crop, crop)
    /\ get_feature_bbox (buffered geom roi_buffer)
         (Some (crop_offsets px_size skew crop)) = Ok (bbox_tl, bbox_br)
    /\ get_pxcoord (offset_geotransform px_size skew)
         (fst bbox_tl) (snd bbox_tl) = Ok real
    /\ roi_tl = get_geocoord (offset_geotransform px_size skew)
                  (inject_Z (Qfloor (fst real)))
                  (inject_Z (Qfloor (snd real)))
    /\ roi_br = get_geocoord (offset_geotransform px_size skew)
                  (inject_Z (Qfloor (fst real) + crop))
                  (inject_Z (Qfloor (snd real) + crop)).
Proof.
  intros Hc Hd Hce. rewrite get_feature_roi_fixed_crop_eq by assumption.
  unfold crop_offsets. rewrite get_feature_bbox_offsets, Hce.
  cbn [coords mbind result_bind].
  match goal with
  | |- context [get_pxcoord ?gt ?x ?y] =>
      destruct (get_pxcoord_defined gt x y Hd) as [real Hr]
  end.
  cbn [fst snd] in *. rewrite Hr. cbn [mbind result_bind fst snd].
  do 6 eexists. split; [reflexivity|].
  split; [reflexivity|]. cbn [fst snd]. split; [exact Hr|].
  split; reflexivity.
Qed.

(** Whatever the local transform, a call with a nonzero pixel crop size
    that returns has returned that size twice. *)
Lemma get_feature_roi_fixed_crop_size (geom : G) (px_size skew : Q * Q)
    (roi_buffer : option Q) (crop : Z) roi roi_tl roi_br w h :
  crop <> 0%Z ->
  get_feature_roi geom px_size skew roi_buffer (Some crop) None
    = Ok (roi, roi_tl, roi_br, w, h) ->
  w = crop /\ h = crop.
Proof.
  intros Hc. rewrite get_feature_roi_fixed_crop_eq by assumption.
  destruct (get_feature_bbox _ _) as [[tl br]|e]; [|discriminate].
  cbn [mbind result_bind].
  destruct (get_pxcoord _ _ _) as [real|e]; [|discriminate].
  cbn [mbind result_bind]. intros [= _ _ _ <- <-]. split; reflexivity.
Qed.

(** A degenerate local transform makes the call raise. *)
Lemma get_feature_roi_degenerate (geom : G) (px_size skew : Q * Q)
    (roi_buffer : option Q) (crop : Z) (c : point) :
  crop <> 0%Z ->
  gt_det (offset_geotransform px_size skew) == 0 ->
  centroid (buffered geom roi_buffer) = Some c ->
  get_feature_roi geom px_size skew roi_buffer (Some crop) None
    = Err TransformNotInvertibleError.
Proof.
  intros Hc Hd Hce. rewrite get_feature_roi_fixed_crop_eq by assumption.
  unfold crop_offsets. rewrite get_feature_bbox_offsets, Hce.
  cbn [coords mbind result_bind]. now rewrite get_pxcoord_undefined.
Qed.

(** The function without a pixel crop size, step by step. *)
Lemma get_feature_roi_no_pixel_crop_eq (geom : G) (px_size skew : Q * Q)
    (roi_buffer : option Q) (crop_real_size : option Q) :
  get_feature_roi geom px_size skew roi_buffer None crop_real_size =
    ('(roi_tl, roi_br) ←
       get_feature_bbox (buffered geom roi_buffer)
         (if truthy_float crop_real_size
          then Some [default 0 crop_real_size / 2;
                     default 0 crop_real_size / 2]
          else None);
     tl_real ← get_pxcoord (offset_geotransform px_size skew)
                 (fst roi_tl) (snd roi_tl);
     br_real ← get_pxcoord (offset_geotransform px_size skew)
                 (fst roi_br) (snd roi_br);
     let tl_px := (Qfloor (fst tl_real), Qfloor (snd tl_real)) in
     let br_px := (Qceiling (fst br_real), Qceiling (snd br_real)) in
     let roi_tl := get_geocoord (offset_geotransform px_size skew)
                     (inject_Z (fst tl_px)) (inject_Z (snd tl_px)) in
     let roi_br := get_geocoord (offset_geotransform px_size skew)
                     (inject_Z (fst br_px)) (inject_Z (snd br_px)) in
     Ok (polygon [roi_tl; (fst roi_br, snd roi_tl); roi_br;
                  (fst roi_tl, snd roi_br)],
         roi_tl, roi_br,
         Z.max (fst br_px - fst tl_px) 1, Z.max (snd br_px - snd tl_px) 1)).
Proof.
  unfold get_feature_roi, buffered.
  cbn -[get_feature_bbox get_pxcoord get_geocoord].
  destruct (truthy_float crop_real_size);
    cbn -[get_feature_bbox get_pxcoord get_geocoord];
    (destruct (get_feature_bbox _ _) as [[tl br]|e]; [|reflexivity]);
    cbn -[get_pxcoord get_geocoord];
    (destruct (get_pxcoord _ (fst tl) (snd tl)) as [r1|e]; [|reflexivity]);
    cbn -[get_pxcoord get_geocoord];
    (destruct (get_pxcoord _ (fst br) (snd br)) as [r2|e]; reflexivity).
Qed.

(** The bounding box of a call without a pixel crop size is there as
    soon as the geometry has bounds and a centroid. *)
Lemma get_feature_bbox_no_pixel_crop_ok (geom : G)
    (crop_real_size : option Q) (b : Q * Q * Q * Q) (c : point) :
  bounds geom = Some b -> centroid geom = Some c ->
  exists tl br,
    get_feature_bbox geom
      (if truthy_float crop_real_size
       then Some [default 0 crop_real_size / 2; default 0 crop_real_size / 2]
       else None) = Ok (tl, br).
Proof.
  intros Hb Hc. destruct (truthy_float crop_real_size).
  - rewrite get_feature_bbox_offsets, Hc. cbn [coords mbind result_bind].
    eauto.
  - rewrite get_feature_bbox_natural, Hb by reflexivity.
    destruct b as [[[b0 b1] b2] b3]. cbn [coords mbind result_bind]. eauto.
Qed.

(** C7, as amended: without a pixel crop size (with or without a
    real-size crop), every call that returns has returned a width and a
    height of at least 1; and the call does return when the local
    transform is invertible and the geometry is not empty after the
    optional buffering (it has bounds and a centroid), also when its
    bounds are a single point. *)
Theorem get_feature_roi_min_size (geom : G) (px_size skew : Q * Q)
    (roi_buffer : option Q) (crop_real_size : option Q) :
  (forall roi roi_tl roi_br w h,
      get_feature_roi geom px_size skew roi_buffer None crop_real_size
        = Ok (roi, roi_tl, roi_br, w, h) ->
      (1 <= w)%Z /\ (1 <= h)%Z)
  /\ (forall b c,
        ~ gt_det (offset_geotransform px_size skew) == 0 ->
        bounds (buffered geom roi_buffer) = Some b ->
        centroid (buffered geom roi_buffer) = Some c ->
        exists roi roi_tl roi_br w h,
          get_feature_roi geom px_size skew roi_buffer None crop_real_size
            = Ok (roi, roi_tl, roi_br, w, h)
          /\ (1 <= w)%Z /\ (1 <= h)%Z).
Proof.
  rewrite get_feature_roi_no_pixel_crop_eq. split.
  - intros roi roi_tl roi_br w h.
    destruct (get_feature_bbox _ _) as [[tl br]|e]; [|discriminate].
    cbn [mbind result_bind].
    destruct (get_pxcoord _ (fst tl) (snd tl)) as [r1|e]; [|discriminate].
    cbn [mbind result_bind].
    destruct (get_pxcoord _ (fst br) (snd br)) as [r2|e]; [|discriminate].
    cbn [mbind result_bind]. intros [= _ _ _ <- <-].
    split; apply Z.le_max_r.
  - intros b c Hd Hb Hc.
    destruct (get_feature_bbox_no_pixel_crop_ok _ crop_real_size b c Hb Hc)
      as (tl & br & ->).
    cbn [mbind result_bind].
    destruct (get_pxcoord_defined _ (fst tl) (snd tl) Hd) as [r1 ->].
    cbn [mbind result_bind].
    destruct (get_pxcoord_defined _ (fst br) (snd br) Hd) as [r2 ->].
    cbn [mbind result_bind]. do 5 eexists.
    split; [reflexivity|]. split; apply Z.le_max_r.
Qed.

End RoiProps.

Lemma get_feature_roi_fixed_crop_witness :
  (64 <> 0)%Z
  /\ ~ gt_det (offset_geotransform (10, -10) (0, 0)) == 0
  /\ centroid (buffered (BoxModel.Box 3 7 45 21 "Polygon") None)
     = Some (48 # 2, 28 # 2)
  /\ exists roi roi_tl roi_br bbox_tl bbox_br real,
      get_feature_roi (BoxModel.Box 3 7 45 21 "Polygon") (10, -10) (0, 0)
        None (Some 64%Z) None = Ok (roi, roi_tl, roi_br, 64%Z, 64%Z)
      /\ get_feature_bbox (buffered (BoxModel.Box 3 7 45 21 "Polygon") None)
           (Some (crop_offsets (10, -10) (0, 0) 64)) = Ok (bbox_tl, bbox_br)
      /\ get_pxcoord (offset_geotransform (10, -10) (0, 0))
           (fst bbox_tl) (snd bbox_tl) = Ok real
      /\ roi_tl = get_geocoord (offset_geotransform (10, -10) (0, 0))
                    (inject_Z (Qfloor (fst real)))
                    (inject_Z (Qfloor (snd real)))
      /\ roi_br = get_geocoord (offset_geotransform (10, -10) (0, 0))
                    (inject_Z (Qfloor (fst real) + 64))
                    (inject_Z (Qfloor (snd real) + 64)).
Proof.
  assert (Hc : (64 <> 0)%Z) by lia.
  assert (Hd : ~ gt_det (offset_geotransform (10, -10) (0, 0)) == 0)
    by (vm_compute; discriminate).
  assert (Hce : centroid (buffered (BoxModel.Box 3 7 45 21 "Polygon") None)
                = Some (48 # 2, 28 # 2)) by reflexivity.
  split; [exact Hc|]. split; [exact Hd|]. split; [exact Hce|].
  exact (get_feature_roi_fixed_crop (BoxModel.Box 3 7 45 21 "Polygon")
           (10, -10) (0, 0) None 64%Z _ Hc Hd Hce).
Defined.

(** C1, as stated, fails for a pixel size and skew whose local transform
    is singular (here both pixel sizes and both skews are 1): the call
    raises and returns no window, of whatever size. *)
Lemma get_feature_roi_singular_counterexample :
  get_feature_roi (BoxModel.Box 0 0 10 10 "Polygon") (1, 1) (1, 1)
    None (Some 64%Z) None = Err TransformNotInvertibleError
  /\ ~ (exists roi roi_tl roi_br w h,
          get_feature_roi (BoxModel.Box 0 0 10 10 "Polygon") (1, 1) (1, 1)
            None (Some 64%Z) None = Ok (roi, roi_tl, roi_br, w, h)
          /\ w = 64%Z /\ h = 64%Z).
Proof.
  assert (E : get_feature_roi (BoxModel.Box 0 0 10 10 "Polygon") (1, 1)
                (1, 1) None (Some 64%Z) None
              = Err TransformNotInvertibleError) by (vm_compute; reflexivity).
  split; [exact E|].
  intros (roi & roi_tl & roi_br & w & h & Hr & _).
  rewrite E in Hr. discriminate.
Qed.

(** The crop size 0 is read in two ways: the two truthiness tests take it
    as no crop size, so that a 10 x 10 geometry on a unit grid yields a
    10 x 10 window, while the assertion on the two crop sizes counts it
    as given. *)
Lemma get_feature_roi_crop_zero_example :
  (exists roi roi_tl roi_br,
      get_feature_roi (BoxModel.Box 0 0 10 10 "Polygon") (1, 1) (0, 0)
        None (Some 0%Z) None = Ok (roi, roi_tl, roi_br, 10%Z, 10%Z))
  /\ get_feature_roi (BoxModel.Box 0 0 10 10 "Polygon") (1, 1) (0, 0)
       None (Some 0%Z) (Some 5)
     = Err (AssertionError
              "should provide at most one type of crop resolution").
Proof.
  split; [do 3 eexists; vm_compute; reflexivity | reflexivity].
Qed.

(** A geometry reduced to the point (5, 5): the window is 1 x 1. *)
Lemma get_feature_roi_min_size_witness :
  ~ gt_det (offset_geotransform (10, -10) (0, 0)) == 0
  /\ bounds (buffered (BoxModel.Box 5 5 5 5 "Polygon") None)
     = Some (5, 5, 5, 5)
  /\ centroid (buffered (BoxModel.Box 5 5 5 5 "Polygon") None)
     = Some (10 # 2, 10 # 2)
  /\ exists roi roi_tl roi_br w h,
       get_feature_roi (BoxModel.Box 5 5 5 5 "Polygon") (10, -10) (0, 0)
         None None None = Ok (roi, roi_tl, roi_br, w, h)
       /\ (1 <= w)%Z /\ (1 <= h)%Z.
Proof.
  assert (Hd : ~ gt_det (offset_geotransform (10, -10) (0, 0)) == 0)
    by (vm_compute; discriminate).
  assert (Hb : bounds (buffered (BoxModel.Box 5 5 5 5 "Polygon") None)
               = Some (5, 5, 5, 5)) by reflexivity.
  assert (Hc : centroid (buffered (BoxModel.Box 5 5 5 5 "Polygon") None)
               = Some (10 # 2, 10 # 2)) by reflexivity.
  split; [exact Hd|]. split; [exact Hb|]. split; [exact Hc|].
  exact (proj2 (get_feature_roi_min_size (BoxModel.Box 5 5 5 5 "Polygon")
                  (10, -10) (0, 0) None None) _ _ Hd Hb Hc).
Defined.

(** C7, as stated, fails for a geometry that the buffering empties: the
    10 x 10 square buffered by -5 has neither bounds nor a centroid, and
    the call raises; so does a call on the empty geometry itself. *)
Lemma get_feature_roi_empty_counterexample :
  bounds (buffer (BoxModel.Box 0 0 10 10 "Polygon") (-5)) = None
  /\ get_feature_roi (BoxModel.Box 0 0 10 10 "Polygon") (1, 1) (0, 0)
       (Some (-5)) None None = Err IndexError
  /\ get_feature_roi (BoxModel.empty_box "Polygon") (1, 1) (0, 0)
       None None None = Err IndexError
  /\ ~ (exists roi roi_tl roi_br w h,
          get_feature_roi (BoxModel.Box 0 0 10 10 "Polygon") (1, 1) (0, 0)
            (Some (-5)) None None = Ok (roi, roi_tl, roi_br, w, h)
          /\ (1 <= w)%Z /\ (1 <= h)%Z).
Proof.
  assert (E : get_feature_roi (BoxModel.Box 0 0 10 10 "Polygon") (1, 1)
                (0, 0) (Some (-5)) None None = Err IndexError)
    by (vm_compute; reflexivity).
  split; [reflexivity|]. split; [exact E|]. split; [reflexivity|].
  intros (roi & roi_tl & roi_br & w & h & Hr & _).
  rewrite E in Hr. discriminate.
Qed.

Example get_feature_roi_point :
  exists roi roi_tl roi_br,
    get_feature_roi (BoxModel.Box 5 5 5 5 "Polygon") (10, -10) (0, 0)
      None None None = Ok (roi, roi_tl, roi_br, 1%Z, 1%Z).
Proof. do 3 eexists. vm_compute. reflexivity. Qed.

(** ** Coordinate reference systems *)

Section CrsProps.
Context {S T : Type} `{SrsLib S T}.

Lemma parse_coordinate_system_unrecognized (body d : dict) :
  py_or (py_get body "crs") (py_get body "srs") = PDict d ->
  recognized d = false ->
  exists e, parse_coordinate_system body = Err e
    /\ (well_typed d = true ->
        e = AssertionError "could not identify CRS/SRS type").
Proof.
  intros Hb Hr. unfold parse_coordinate_system. rewrite Hb.
  cbn [mbind result_bind].
  unfold recognized, well_typed, crs_type_of, crs_opts_of in *.
  destruct (default (PStr "") (dict_get d "type")) as [| | | |s| |];
    try (eexists; split; [reflexivity | discriminate]).
  cbn [mbind result_bind].
  destruct (py_get d "properties") as [| | | | | |p];
    try (eexists; split; [reflexivity | discriminate]).
  cbn [mbind result_bind].
  apply orb_false_iff in Hr. destruct Hr as [Hk Hn].
  cbn [existsb known_importers] in Hk.
  repeat (apply orb_false_iff in Hk; destruct Hk as [? Hk]).
  repeat match goal with E : String.eqb _ _ = false |- _ => rewrite E; clear E end.
  destruct (String.eqb (upper s) "NAME") eqn:En; cbn [andb negb orb] in *.
  - destruct (map snd p) as [|opt0 [|opt1 rest]]; cbn.
    + eexists; split; reflexivity.
    + destruct opt0 as [| | | |s0|l0|d0]; cbn;
        try (eexists; split; [reflexivity | discriminate]).
      * rewrite Hn. cbn. eexists; split; reflexivity.
      * destruct (existsb _ l0); cbn;
          (eexists; split; [reflexivity | discriminate]).
      * destruct (is_some (dict_get d0 ":EPSG:")); cbn;
          (eexists; split; [reflexivity | discriminate]).
    + eexists; split; reflexivity.
  - cbn. eexists; split; reflexivity.
Qed.

(** C6: a descriptor whose [type] is absent or of no recognized kind
    makes [parse_coordinate_system] fail, with the could-not-identify
    assertion when its members have the documented types; the EPSG/4326
    descriptor succeeds when the importer does, and a [BOGUS] descriptor
    fails whatever its properties. *)
Theorem parse_coordinate_system_strict :
  (forall body d,
      py_or (py_get body "crs") (py_get body "srs") = PDict d ->
      recognized d = false ->
      exists e, parse_coordinate_system body = Err e
        /\ (well_typed d = true ->
            e = AssertionError "could not identify CRS/SRS type"))
  /\ (forall srs,
        import_from EPSG [PInt 4326] new_srs = Ok (0%Z, srs) ->
        parse_coordinate_system
          [("crs"%string,
            PDict [("type"%string, PStr "EPSG");
                   ("properties"%string,
                    PDict [("code"%string, PInt 4326)])])]
        = Ok srs)
  /\ (forall props,
        parse_coordinate_system
          [("crs"%string,
            PDict [("type"%string, PStr "BOGUS");
                   ("properties"%string, PDict props)])]
        = Err (AssertionError "could not identify CRS/SRS type")).
Proof.
  split; [|split].
  - apply parse_coordinate_system_unrecognized.
  - intros srs Hi. unfold parse_coordinate_system. cbn.
    rewrite Hi. reflexivity.
  - intros props. reflexivity.
Qed.

End CrsProps.

Lemma parse_coordinate_system_strict_witness :
  parse_coordinate_system (S := BoxModel.epsg)
    [("crs"%string,
      PDict [("type"%string, PStr "EPSG");
             ("properties"%string, PDict [("code"%string, PInt 4326)])])]
  = Ok (Some 4326%Z)
  /\ exists e,
       parse_coordinate_system (S := BoxModel.epsg)
         [("srs"%string, PDict [("properties"%string, PDict [])])] = Err e
       /\ e = AssertionError "could not identify CRS/SRS type".
Proof.
  split.
  - apply (proj1 (proj2 (parse_coordinate_system_strict (S := BoxModel.epsg)))).
    reflexivity.
  - destruct (proj1 (parse_coordinate_system_strict (S := BoxModel.epsg))
                [("srs"%string, PDict [("properties"%string, PDict [])])]
                [("properties"%string, PDict [])] eq_refl eq_refl)
      as (e & He & Hw).
    exists e. split; [exact He | exact (Hw eq_refl)].
Defined.

(** The kind is read in upper case: a lower-case [epsg] is the EPSG
    importer. *)
Example parse_coordinate_system_lower_case :
  parse_coordinate_system (S := BoxModel.epsg)
    [("crs"%string,
      PDict [("type"%string, PStr "epsg");
             ("properties"%string, PDict [("code"%string, PInt 32618)])])]
  = Ok (Some 32618%Z).
Proof. reflexivity. Qed.

(** The [NAME] case of the source. *)
Example parse_coordinate_system_name :
  parse_coordinate_system (S := BoxModel.epsg)
    [("crs"%string,
      PDict [("type"%string, PStr "name");
             ("properties"%string,
              PDict [("name"%string, PStr "urn:ogc:def:crs:EPSG::26918")])])]
  = Ok (Some 26918%Z).
Proof. reflexivity. Qed.

(** ** Raster bands *)

Import Samples.

(** Once a nonzero data type is recorded, every later band is compared
    with it. *)
Lemma check_bands_recorded (rasterfile : raster_file) (idxs : list Z) (t : Z) :
  t <> 0%Z ->
  (forall i, In i idxs -> GetRasterBand rasterfile (i + 1)%Z <> None) ->
  check_bands rasterfile idxs (Some t) =
    if forallb (fun i => (t =? type_at rasterfile i)%Z) idxs
    then Ok (Some t)
    else Err (AssertionError "expected identical data types in all bands").
Proof.
  intros Ht. induction idxs as [|i rest IH]; intros Hb; [reflexivity|].
  cbn [check_bands forallb]. unfold type_at at 1.
  destruct (GetRasterBand rasterfile (i + 1)%Z) as [b|] eqn:Eb.
  - assert (Htr : truthy_int (Some t) = true)
      by (cbn; now apply negb_true_iff, Z.eqb_neq).
    rewrite Htr. change (default 0%Z (Some t)) with t.
    destruct (t =? DataType b)%Z; cbn [assert mbind result_bind andb].
    + apply IH. intros j Hj. apply Hb. now right.
    + reflexivity.
  - exfalso. apply (Hb i); [now left | exact Eb].
Qed.

Lemma check_bands_keeps_some (rasterfile : raster_file) (idxs : list Z) (t : Z) :
  check_bands rasterfile idxs (Some t) <> Ok None.
Proof.
  revert t. induction idxs as [|k r IH]; intros t; cbn [check_bands].
  - discriminate.
  - destruct (GetRasterBand rasterfile (k + 1)%Z) as [b|]; [|discriminate].
    destruct (truthy_int (Some t));
      (destruct (assert _ _); cbn [mbind result_bind]; [apply IH | discriminate]).
Qed.

(** A recorded data type 0 ([GDT_Unknown]) counts as no recorded type:
    the loop goes on as if it had seen no band yet. *)
Lemma check_bands_unknown_forgotten (rasterfile : raster_file) (idxs : list Z) :
  check_bands rasterfile idxs (Some 0%Z)
  = match check_bands rasterfile idxs None with
    | Ok None => Ok (Some 0%Z)
    | r => r
    end.
Proof.
  destruct idxs as [|j rest]; [reflexivity|].
  cbn [check_bands].
  destruct (GetRasterBand rasterfile (j + 1)%Z) as [b|]; [|reflexivity].
  change (truthy_int (Some 0%Z)) with false.
  change (truthy_int None) with false. cbv iota.
  destruct (assert _ _); cbn [mbind result_bind]; [|reflexivity].
  pose proof (check_bands_keeps_some rasterfile rest (DataType b)) as Hs.
  destruct (check_bands rasterfile rest (Some (DataType b))) as [[z|]|e];
    [reflexivity | contradiction | reflexivity].
Qed.

(** C5 fails on the code: a raster whose two bands have the data types 0
    ([GDT_Unknown]) and 1 ([GDT_Byte]) passes the validation, and
    [parse_rasters] returns its record with data type 1. *)
Theorem mixed_band_types_accepted :
  check_bands (raster_with_bands [0; 1]%Z) (py_range 2) None = Ok (Some 1%Z)
  /\ exists rd coverage fs,
       parse_rasters (G := BoxModel.box) (S := BoxModel.epsg)
         ["a.tif"%string] None false (single_raster (raster_with_bands [0; 1]%Z))
       = (Ok ([rd], coverage), fs)
       /\ rd_data_type rd = Some 1%Z.
Proof.
  split; [reflexivity|]. do 3 eexists. split; reflexivity.
Qed.

(** The same two data types in the other order are rejected, and so is
    any mix that starts with a nonzero type. *)
Example mixed_band_types_rejected :
  fst (parse_rasters (G := BoxModel.box) (S := BoxModel.epsg)
         ["a.tif"%string] None false (single_raster (raster_with_bands [1; 0]%Z)))
  = Err (AssertionError "expected identical data types in all bands").
Proof. reflexivity. Qed.

Example uniform_band_types_accepted :
  exists rd coverage fs,
    parse_rasters (G := BoxModel.box) (S := BoxModel.epsg)
      ["a.tif"%string] None false (single_raster (raster_with_bands [3; 3; 3]%Z))
    = (Ok ([rd], coverage), fs)
    /\ rd_data_type rd = Some 3%Z.
Proof. do 3 eexists. split; reflexivity. Qed.

(** ** Feature collections *)

Lemma dict_get_set_eq {A : Type} (d : list (string * A)) (k : string) (v : A) :
  dict_get (dict_set d k v) k = Some v.
Proof.
  induction d as [|[k' v'] d IH]; cbn.
  - now rewrite String.eqb_refl.
  - destruct (String.eqb k' k) eqn:E; cbn; rewrite E; [reflexivity | exact IH].
Qed.

Lemma dict_get_set_ne {A : Type} (d : list (string * A)) (k k' : string) (v : A) :
  k <> k' -> dict_get (dict_set d k v) k' = dict_get d k'.
Proof.
  intros Hne. induction d as [|[k0 v0] d IH]; cbn.
  - destruct (String.eqb k k') eqn:E; [|reflexivity].
    apply String.eqb_eq in E. contradiction.
  - destruct (String.eqb k0 k) eqn:E; cbn.
    + apply String.eqb_eq in E. subst k0.
      destruct (String.eqb k k') eqn:E'; [|reflexivity].
      apply String.eqb_eq in E'. contradiction.
    + destruct (String.eqb k0 k'); [reflexivity | exact IH].
Qed.

Section GeoJsonProps.
Context {G S T : Type} `{GeometryLib G T} `{SrsLib S T}.

Lemma updated_feature_geometry roi allow clip (f : feature G) g t :
  dict_get (updated_feature roi allow clip f g t) "geometry"
  = Some (FGeom (final_geometry roi allow clip g)).
Proof.
  unfold updated_feature, final_geometry, set_type, set_geometry.
  destruct roi as [roi|]; [destruct (roi_keeps roi allow g), clip|]; cbn [andb];
    repeat first [ rewrite dict_get_set_eq
                 | rewrite dict_get_set_ne by discriminate ];
    reflexivity.
Qed.

Lemma updated_feature_type roi allow clip (f : feature G) g t :
  dict_get (updated_feature roi allow clip f g t) "type"
  = Some (FVal (PStr (final_type roi allow clip g t))).
Proof.
  unfold updated_feature, final_type, final_geometry, set_type, set_geometry.
  destruct roi as [roi|]; [destruct (roi_keeps roi allow g), clip|]; cbn [andb];
    repeat first [ rewrite dict_get_set_eq
                 | rewrite dict_get_set_ne by discriminate ];
    reflexivity.
Qed.

Lemma updated_feature_other roi allow clip (f : feature G) g t k :
  k <> "geometry"%string -> k <> "type"%string ->
  dict_get (updated_feature roi allow clip f g t) k = dict_get f k.
Proof.
  intros Hg Ht.
  unfold updated_feature, set_type, set_geometry.
  destruct roi as [roi|]; [destruct (roi_keeps roi allow g), clip|];
    repeat rewrite dict_get_set_ne by congruence; reflexivity.
Qed.

(** A feature that holds a geometry object cannot be parsed again. *)
Lemma parse_geometry_parsed (tr : option T) (f : feature G) (g : G) :
  dict_get f "geometry" = Some (FGeom g) ->
  parse_geometry tr f = Err TypeError.
Proof. intros Hg. unfold parse_geometry. now rewrite Hg. Qed.

(** The tag returned by [parse_geometry] is the raw geometry type. *)
Lemma parse_geometry_type (tr : option T) (f : feature G) (g : G) (t : string) :
  parse_geometry tr f = Ok (g, t) ->
  exists d, dict_get f "geometry" = Some (FVal (PDict d))
    /\ dict_get d "type" = Some (PStr t)
    /\ is_geom_type t = true.
Proof.
  unfold parse_geometry.
  destruct (dict_get f "geometry") as [[v|g']|] eqn:Eg;
    cbn [mbind result_bind]; try discriminate.
  destruct v as [| | | | | |d]; cbn [mbind result_bind]; try discriminate.
  destruct (dict_get d "type") as [ty|] eqn:Et; cbn [mbind result_bind];
    [|discriminate].
  destruct ty as [| | | |s| |]; cbn [assert mbind result_bind];
    try discriminate.
  destruct (is_geom_type s) eqn:Es; cbn [mbind result_bind]; [|discriminate].
  intros Hp. assert (Hs : t = s).
  { destruct (String.eqb s "Polygon") eqn:Ep.
    - apply String.eqb_eq in Ep. subst s. revert Hp.
      repeat match goal with
             | |- context [mbind _ ?r] =>
                 destruct r; cbn [mbind result_bind]; try discriminate
             end.
      now intros [= _ <-].
    - unfold is_geom_type in Es. rewrite Ep in Es. cbn in Es.
      apply String.eqb_eq in Es. subst s. revert Hp.
      destruct (assert _ _); cbn [mbind result_bind]; [|discriminate].
      now intros [= _ <-]. }
  subst t. exists d. repeat split; assumption.
Qed.

(** One successful iteration. *)
Lemma parse_feature_ok tr roi allow clip (l : loc) (h h' : heap G) keep :
  parse_feature tr roi allow clip l h = (Ok keep, h') ->
  exists f g t,
    h !! l = Some f /\ parse_geometry tr f = Ok (g, t)
    /\ keep = keeps tr roi allow h l
    /\ h' = <[l := updated_feature roi allow clip f g t]> h.
Proof.
  unfold parse_feature, keeps, updated_feature.
  destruct (h !! l) as [f|] eqn:Ef; [|discriminate].
  destruct (parse_geometry tr f) as [[g t]|e] eqn:Ep; [|discriminate].
  intros Hr. exists f, g, t. split; [reflexivity|]. split; [exact Ep|].
  revert Hr.
  destruct roi as [roi|].
  - destruct (roi_keeps roi allow g).
    + destruct clip.
      * cbv zeta. destruct (is_geom_type _); [|discriminate].
        intros [= <- <-]. split; [reflexivity|].
        now rewrite !insert_insert_eq.
      * intros [= <- <-]. split; [reflexivity|].
        now rewrite insert_insert_eq.
    + intros [= <- <-]. split; reflexivity.
  - intros [= <- <-]. split; reflexivity.
Qed.

(** The loop, when it returns: the locations are pairwise distinct, the
    kept ones are those that pass the test, in order, and each feature
    has been overwritten once. *)
Lemma parse_features_loop_ok tr roi allow clip (features : list loc) :
  forall kept (h : heap G) kept' h',
    parse_features_loop tr roi allow clip features kept h = (Ok kept', h') ->
    NoDup features
    /\ kept' = kept ++ List.filter (keeps tr roi allow h) features
    /\ (forall l, In l features ->
          exists f g t,
            h !! l = Some f /\ parse_geometry tr f = Ok (g, t)
            /\ h' !! l = Some (updated_feature roi allow clip f g t))
    /\ (forall l, ~ In l features -> h' !! l = h !! l).
Proof.
  induction features as [|l rest IH]; intros kept h kept' h' Hl;
    cbn [parse_features_loop] in Hl.
  - injection Hl as <- <-. split; [constructor|].
    split; [now rewrite app_nil_r|]. split; [intros l []|reflexivity].
  - destruct (parse_feature tr roi allow clip l h) as [[keep|e] h1] eqn:Ef;
      [|discriminate].
    destruct (parse_feature_ok _ _ _ _ _ _ _ _ Ef)
      as (f & g & t & Hf & Hp & Hk & Hh1).
    destruct (IH _ _ _ _ Hl) as (Hnd & Hkept & Hin & Hout).
    assert (Hnotin : ~ In l rest).
    { intros Hi. destruct (Hin l Hi) as (f' & g' & t' & Hf' & Hp' & _).
      subst h1. rewrite lookup_insert_eq in Hf'. injection Hf' as <-.
      rewrite (parse_geometry_parsed tr _ _
                 (updated_feature_geometry roi allow clip f g t)) in Hp'.
      discriminate. }
    assert (Hsame : forall l', In l' rest -> h1 !! l' = h !! l').
    { intros l' Hi. subst h1. apply lookup_insert_ne.
      intros ->. contradiction. }
    split; [constructor; [now rewrite list_elem_of_In | assumption]|].
    split.
    { rewrite Hkept. cbn [List.filter]. rewrite <- Hk.
      rewrite (filter_ext_in (keeps tr roi allow h1) (keeps tr roi allow h)).
      - destruct keep; [now rewrite <- app_assoc | reflexivity].
      - intros l' Hi. unfold keeps. now rewrite Hsame. }
    split.
    { intros l' [<-|Hi].
      - exists f, g, t. split; [assumption|]. split; [assumption|].
        rewrite Hout by assumption. subst h1. apply lookup_insert_eq.
      - destruct (Hin l' Hi) as (f' & g' & t' & Hf' & Hp' & Hu).
        exists f', g', t'. rewrite <- Hsame by assumption. auto. }
    { intros l' Hn. rewrite Hout by (intros Hi; apply Hn; now right).
      subst h1. apply lookup_insert_ne. intros ->. apply Hn. now left. }
Qed.

(** The loop returns as soon as the locations are pairwise distinct,
    every feature parses and every clip is a polygon or multipolygon. *)
Lemma parse_features_loop_returns tr roi allow clip (features : list loc) :
  forall kept (h : heap G),
    NoDup features ->
    (forall l, In l features ->
       exists f g t,
         h !! l = Some f /\ parse_geometry tr f = Ok (g, t)
         /\ (forall r, roi = Some r -> clip = true ->
               is_geom_type (geom_type (intersection r g)) = true)) ->
    exists kept' h',
      parse_features_loop tr roi allow clip features kept h = (Ok kept', h').
Proof.
  induction features as [|l rest IH]; intros kept h Hnd Hall;
    cbn [parse_features_loop]; [eauto|].
  apply NoDup_cons in Hnd. destruct Hnd as [Hnotin Hnd].
  rewrite list_elem_of_In in Hnotin.
  destruct (Hall l (or_introl eq_refl)) as (f & g & t & Hf & Hp & Hc).
  assert (Hstep : exists keep,
             parse_feature tr roi allow clip l h
             = (Ok keep, <[l := updated_feature roi allow clip f g t]> h)).
  { unfold parse_feature, updated_feature. rewrite Hf, Hp.
    destruct roi as [r|]; [|eauto].
    destruct (roi_keeps r allow g); [|eauto].
    destruct clip; cbv zeta.
    - rewrite (Hc r eq_refl eq_refl), !insert_insert_eq. eauto.
    - rewrite insert_insert_eq. eauto. }
  destruct Hstep as [keep ->].
  apply IH; [assumption|].
  intros l' Hi. destruct (Hall l' (or_intror Hi)) as (f' & g' & t' & Hf' & Hr).
  exists f', g', t'. split; [|exact Hr].
  rewrite lookup_insert_ne; [assumption | intros ->; contradiction].
Qed.


(** A successful call has a list of features and a transformation. *)
Lemma parse_geojson_ok gj srs_target roi allow clip (h h' : heap G) kept :
  parse_geojson gj srs_target roi allow clip h = (Ok kept, h') ->
  exists features tr,
    gj_features gj = FeaturesList features
    /\ srs_transform_of gj srs_target = Ok tr
    /\ parse_features_loop tr roi allow clip features [] h = (Ok kept, h').
Proof.
  unfold parse_geojson.
  destruct (gj_features gj) as [|v|features]; try discriminate.
  destruct (srs_transform_of gj srs_target) as [tr|e]; [|discriminate].
  intros Hl. eauto.
Qed.

(** C4: when [parse_geojson] is given an ROI and returns, the returned
    list is the input list filtered, in order, by the ROI test: a feature
    is kept if and only if [allow_outlying] holds and the ROI intersects
    its parsed and reprojected geometry, or [allow_outlying] does not
    hold and the ROI contains it.  A feature that the ROI intersects but
    does not contain is kept under [allow_outlying] and dropped
    otherwise. *)
Theorem parse_geojson_roi_filter gj srs_target (roi : G) allow clip
    (h h' : heap G) kept :
  parse_geojson gj srs_target (Some roi) allow clip h = (Ok kept, h') ->
  exists features tr,
    gj_features gj = FeaturesList features
    /\ srs_transform_of gj srs_target = Ok tr
    /\ kept = List.filter (keeps tr (Some roi) allow h) features
    /\ forall l, In l features ->
         exists f g t,
           h !! l = Some f /\ parse_geometry tr f = Ok (g, t)
           /\ (In l kept <->
                 (allow = true /\ intersects roi g = true)
                 \/ (allow = false /\ contains roi g = true))
           /\ (intersects roi g = true -> contains roi g = false ->
                 (allow = true -> In l kept)
                 /\ (allow = false -> ~ In l kept)).
Proof.
  intros Hr. destruct (parse_geojson_ok _ _ _ _ _ _ _ _ Hr)
    as (features & tr & Hf & Ht & Hl).
  destruct (parse_features_loop_ok _ _ _ _ _ _ _ _ _ Hl)
    as (Hnd & Hk & Hin & Hout). cbn [app] in Hk.
  exists features, tr. repeat (split; [assumption|]).
  intros l Hi. destruct (Hin l Hi) as (f & g & t & Hfl & Hp & _).
  exists f, g, t. split; [assumption|]. split; [assumption|].
  assert (Hiff : In l kept <-> roi_keeps roi allow g = true).
  { rewrite Hk, filter_In. unfold keeps. rewrite Hfl, Hp. tauto. }
  unfold roi_keeps in Hiff. split.
  - rewrite Hiff. destruct allow, (intersects roi g), (contains roi g);
      cbn; intuition discriminate.
  - intros Hi1 Hc1. rewrite Hiff, Hi1, Hc1.
    split; intros ->; cbn; [reflexivity | discriminate].
Qed.

(** C10: when [parse_geojson] returns, every feature of the input list
    has been overwritten in the store, whether or not it is in the
    returned list: its raw geometry was a mapping of type [t], Polygon
    or MultiPolygon; its ["geometry"] entry now holds a geometry object
    and its ["type"] entry a type tag; all its other entries and all
    other objects of the store are unchanged.  For a feature that is not
    returned the object is the parsed and reprojected geometry [g] and
    the tag is [t]; for a returned one the object is [g], or the clip of
    [g] under [clip_outlying]. *)
Theorem parse_geojson_mutates_input gj srs_target roi allow clip
    (h h' : heap G) kept :
  parse_geojson gj srs_target roi allow clip h = (Ok kept, h') ->
  exists features tr,
    gj_features gj = FeaturesList features
    /\ srs_transform_of gj srs_target = Ok tr
    /\ (forall l, ~ In l features -> h' !! l = h !! l)
    /\ forall l, In l features ->
         exists f f' d g t,
           h !! l = Some f
           /\ dict_get f "geometry" = Some (FVal (PDict d))
           /\ dict_get d "type" = Some (PStr t)
           /\ is_geom_type t = true
           /\ parse_geometry tr f = Ok (g, t)
           /\ h' !! l = Some f'
           /\ dict_get f' "geometry"
              = Some (FGeom (final_geometry roi allow clip g))
           /\ dict_get f' "type"
              = Some (FVal (PStr (final_type roi allow clip g t)))
           /\ (forall k, k <> "geometry"%string -> k <> "type"%string ->
                 dict_get f' k = dict_get f k)
           /\ (~ In l kept ->
                 final_geometry roi allow clip g = g
                 /\ final_type roi allow clip g t = t)
           /\ (clip = false -> final_geometry roi allow clip g = g).
Proof.
  intros Hr. destruct (parse_geojson_ok _ _ _ _ _ _ _ _ Hr)
    as (features & tr & Hf & Ht & Hl).
  destruct (parse_features_loop_ok _ _ _ _ _ _ _ _ _ Hl)
    as (Hnd & Hk & Hin & Hout). cbn [app] in Hk.
  exists features, tr. repeat (split; [assumption|]).
  intros l Hi. destruct (Hin l Hi) as (f & g & t & Hfl & Hp & Hu).
  destruct (parse_geometry_type _ _ _ _ Hp) as (d & Hg & Hty & Hgt).
  exists f, (updated_feature roi allow clip f g t), d, g, t.
  repeat (split; [assumption|]).
  split; [apply updated_feature_geometry|].
  split; [apply updated_feature_type|].
  split; [intros k; apply updated_feature_other|].
  split.
  - intros Hn.
    assert (Hkeep : keeps tr roi allow h l = false).
    { destruct (keeps tr roi allow h l) eqn:E; [|reflexivity].
      exfalso. apply Hn. rewrite Hk. apply filter_In. now split. }
    unfold keeps in Hkeep. rewrite Hfl, Hp in Hkeep.
    unfold final_geometry, final_type.
    destruct roi as [r|]; [|discriminate]. now rewrite Hkeep.
  - intros ->. unfold final_geometry. destruct roi as [r|]; [|reflexivity].
    now rewrite andb_false_r.
Qed.

(** The call returns for a collection with a valid CRS whose features
    are distinct objects that parse, when every clip is a polygon or
    multipolygon. *)
Lemma parse_geojson_returns gj srs_target roi allow clip (h : heap G)
    features tr :
  gj_features gj = FeaturesList features ->
  srs_transform_of gj srs_target = Ok tr ->
  NoDup features ->
  (forall l, In l features ->
     exists f g t,
       h !! l = Some f /\ parse_geometry tr f = Ok (g, t)
       /\ (forall r, roi = Some r -> clip = true ->
             is_geom_type (geom_type (intersection r g)) = true)) ->
  exists kept h', parse_geojson gj srs_target roi allow clip h = (Ok kept, h').
Proof.
  intros Hf Ht Hnd Hall. unfold parse_geojson. rewrite Hf, Ht.
  now apply parse_features_loop_returns.
Qed.

End GeoJsonProps.

(** The sample collection under intersection mode: the features inside
    and across the boundary are returned. *)
Lemma parse_geojson_roi_filter_witness :
  exists kept h',
    parse_geojson (S := BoxModel.epsg) sample_collection None
      (Some sample_roi) true false sample_heap = (Ok kept, h')
    /\ kept = [0%nat; 1%nat]
    /\ exists features tr,
        gj_features sample_collection = FeaturesList features
        /\ srs_transform_of (S := BoxModel.epsg) sample_collection None = Ok tr
        /\ kept = List.filter (keeps tr (Some sample_roi) true sample_heap) features
        /\ forall l, In l features ->
             exists f g t,
               sample_heap !! l = Some f /\ parse_geometry tr f = Ok (g, t)
               /\ (In l kept <->
                     (true = true /\ intersects sample_roi g = true)
                     \/ (true = false /\ contains sample_roi g = true))
               /\ (intersects sample_roi g = true ->
                   contains sample_roi g = false ->
                   (true = true -> In l kept) /\ (true = false -> ~ In l kept)).
Proof.
  pose (r := parse_geojson (S := BoxModel.epsg) sample_collection None
               (Some sample_roi) true false sample_heap).
  assert (E : r = (Ok [0%nat; 1%nat], snd r)) by (vm_compute; reflexivity).
  exists [0%nat; 1%nat], (snd r). split; [exact E|]. split; [reflexivity|].
  exact (parse_geojson_roi_filter _ _ _ _ _ _ _ _ E).
Defined.

(** The same collection under containment mode: the feature across the
    boundary is dropped. *)
Example parse_geojson_containment :
  fst (parse_geojson (S := BoxModel.epsg) sample_collection None
         (Some sample_roi) false false sample_heap) = Ok [0%nat].
Proof. vm_compute. reflexivity. Qed.

(** Under containment mode the two dropped features have been overwritten
    all the same. *)
Lemma parse_geojson_mutates_input_witness :
  exists kept h',
    parse_geojson (S := BoxModel.epsg) sample_collection None
      (Some sample_roi) false false sample_heap = (Ok kept, h')
    /\ kept = [0%nat]
    /\ exists features tr,
        gj_features sample_collection = FeaturesList features
        /\ srs_transform_of (S := BoxModel.epsg) sample_collection None = Ok tr
        /\ (forall l, ~ In l features -> h' !! l = sample_heap !! l)
        /\ forall l, In l features ->
             exists f f' d g t,
               sample_heap !! l = Some f
               /\ dict_get f "geometry" = Some (FVal (PDict d))
               /\ dict_get d "type" = Some (PStr t)
               /\ is_geom_type t = true
               /\ parse_geometry tr f = Ok (g, t)
               /\ h' !! l = Some f'
               /\ dict_get f' "geometry"
                  = Some (FGeom (final_geometry (Some sample_roi) false false g))
               /\ dict_get f' "type"
                  = Some (FVal (PStr (final_type (Some sample_roi) false false g t)))
               /\ (forall k, k <> "geometry"%string -> k <> "type"%string ->
                     dict_get f' k = dict_get f k)
               /\ (~ In l kept ->
                     final_geometry (Some sample_roi) false false g = g
                     /\ final_type (Some sample_roi) false false g t = t)
               /\ (false = false ->
                   final_geometry (Some sample_roi) false false g = g).
Proof.
  pose (r := parse_geojson (S := BoxModel.epsg) sample_collection None
               (Some sample_roi) false false sample_heap).
  assert (E : r = (Ok [0%nat], snd r)) by (vm_compute; reflexivity).
  exists [0%nat], (snd r). split; [exact E|]. split; [reflexivity|].
  exact (parse_geojson_mutates_input _ _ _ _ _ _ _ _ E).
Defined.

Example parse_geojson_dropped_feature_overwritten :
  let h' := snd (parse_geojson (S := BoxModel.epsg) sample_collection None
                   (Some sample_roi) false false sample_heap) in
  (h' !! 2%nat) ≫= (fun f => dict_get f "geometry")
    = Some (FGeom (BoxModel.Box 20 20 22 22 "Polygon"))
  /\ (h' !! 2%nat) ≫= (fun f => dict_get f "type")
    = Some (FVal (PStr "Polygon")).
Proof. vm_compute. split; reflexivity. Qed.

(** A location listed twice: the second visit finds a geometry object
    where it expects a mapping and the call raises. *)
Example parse_geojson_aliased_features :
  fst (parse_geojson (S := BoxModel.epsg)
         {| gj_members := gj_members sample_collection;
            gj_features := FeaturesList [0%nat; 0%nat] |}
         None None false false sample_heap) = Err TypeError.
Proof. vm_compute. reflexivity. Qed.

(** * Further properties of the module *)

(** ** Affine transform, continued *)

Lemma geo_pixel_geo (gt : geotransform) (x y : Q) (p : point) :
  get_pxcoord gt x y = Ok p ->
  pt_eq (get_geocoord gt (fst p) (snd p)) (x, y).
Proof.
  intros Hp.
  assert (Hd : ~ gt_det gt == 0).
  { intros Hz. rewrite (get_pxcoord_undefined gt x y Hz) in Hp. discriminate. }
  destruct (invert_regular gt Hd) as (m & Hm & Em).
  unfold get_pxcoord in Hp. rewrite Hm in Hp. simpl in Hp.
  injection Hp as <-. subst m.
  unfold gt_det in *. destruct gt as [ox rx sx oy sy ry].
  unfold pt_eq; simpl in *. split; field; exact Hd.
Qed.

Lemma pixel_geo_pixel (gt : geotransform) (c r : Q) :
  ~ gt_det gt == 0 ->
  exists p,
    get_pxcoord gt (fst (get_geocoord gt c r)) (snd (get_geocoord gt c r)) = Ok p
    /\ pt_eq p (c, r).
Proof.
  intros Hd. destruct (invert_regular gt Hd) as (m & Hm & Em).
  unfold get_pxcoord. rewrite Hm. simpl. eexists. split; [reflexivity|].
  subst m. unfold gt_det in *. destruct gt as [ox rx sx oy sy ry].
  unfold pt_eq; simpl in *. split; field; exact Hd.
Qed.

(** X1: whenever [get_pxcoord] returns a pixel coordinate for a geo
    coordinate [(x, y)], [get_geocoord] maps that pixel back to [(x, y)]. *)
Theorem get_geocoord_get_pxcoord (gt : geotransform) (x y : Q) (p : point) :
  get_pxcoord gt x y = Ok p ->
  pt_eq (get_geocoord gt (fst p) (snd p)) (x, y).
Proof. apply geo_pixel_geo. Qed.

Lemma get_geocoord_get_pxcoord_witness :
  exists p,
    get_pxcoord (Geotransform 500000 10 2 4000000 1 (-10)) 500123 3999877 = Ok p
    /\ pt_eq (get_geocoord (Geotransform 500000 10 2 4000000 1 (-10))
                (fst p) (snd p))
             (500123, 3999877).
Proof.
  eexists.
  assert (E : get_pxcoord (Geotransform 500000 10 2 4000000 1 (-10))
                500123 3999877 = Ok _) by reflexivity.
  split; [exact E|].
  exact (get_geocoord_get_pxcoord _ _ _ _ E).
Defined.

(** X3: the extent of a pixel window is a parallelogram whose edges do
    not depend on the origin of the transform nor on the position of the
    window: going down [rows] pixels moves by
    [(rows * skew_x, rows * res_y)], going right [cols] pixels moves by
    [(cols * res_x, cols * skew_y)]. *)
Theorem get_geoextent_edges (gt : geotransform) (x y cols rows : Q) :
  exists tl bl br tr,
    get_geoextent gt x y cols rows = [tl; bl; br; tr]
    /\ pt_eq (fst bl - fst tl, snd bl - snd tl) (rows * skew_x gt, rows * res_y gt)
    /\ pt_eq (fst tr - fst tl, snd tr - snd tl) (cols * res_x gt, cols * skew_y gt)
    /\ pt_eq (fst br - fst bl, snd br - snd bl) (cols * res_x gt, cols * skew_y gt)
    /\ pt_eq (fst br - fst tr, snd br - snd tr) (rows * skew_x gt, rows * res_y gt).
Proof.
  do 4 eexists. split; [reflexivity|].
  unfold pt_eq, get_geocoord, Affine.mul, affine_of, Affine.from_gdal.
  cbn [fst snd Affine.a Affine.b Affine.c Affine.d Affine.e Affine.f].
  repeat split; ring.
Qed.

(** ** Crop windows, continued *)

Section RoiMoreProps.
Context {G T : Type} `{GeometryLib G T}.

(** A pixel crop size of 0 is no pixel crop size. *)
Lemma get_feature_roi_zero_crop (geom : G) (px_size skew : Q * Q)
    (roi_buffer : option Q) :
  get_feature_roi geom px_size skew roi_buffer (Some 0%Z) None
  = get_feature_roi geom px_size skew roi_buffer None None.
Proof. reflexivity. Qed.

Lemma get_feature_roi_no_pixel_crop_ok (geom : G) (px_size skew : Q * Q)
    (roi_buffer : option Q) (crop_real_size : option Q) :
  is_ok (get_feature_roi geom px_size skew roi_buffer None crop_real_size)
  = (if truthy_float crop_real_size
     then is_some (centroid (buffered geom roi_buffer))
     else is_some (bounds (buffered geom roi_buffer)))
    && negb (Qeq_bool (gt_det (offset_geotransform px_size skew)) 0).
Proof.
  rewrite get_feature_roi_no_pixel_crop_eq.
  assert (Hb : (exists tl br,
                   get_feature_bbox (buffered geom roi_buffer)
                     (if truthy_float crop_real_size
                      then Some [default 0 crop_real_size / 2;
                                 default 0 crop_real_size / 2]
                      else None) = Ok (tl, br)
                   /\ (if truthy_float crop_real_size
                       then is_some (centroid (buffered geom roi_buffer))
                       else is_some (bounds (buffered geom roi_buffer)))
                      = true)
               \/ (get_feature_bbox (buffered geom roi_buffer)
                     (if truthy_float crop_real_size
                      then Some [default 0 crop_real_size / 2;
                                 default 0 crop_real_size / 2]
                      else None) = Err IndexError
                   /\ (if truthy_float crop_real_size
                       then is_some (centroid (buffered geom roi_buffer))
                       else is_some (bounds (buffered geom roi_buffer)))
                      = false)).
  { destruct (truthy_float crop_real_size).
    - rewrite get_feature_bbox_offsets.
      destruct (centroid _) as [c|]; cbn [coords mbind result_bind is_some];
        [left; eauto | right; auto].
    - rewrite get_feature_bbox_natural by reflexivity.
      destruct (bounds _) as [[[[b0 b1] b2] b3]|];
        cbn [coords mbind result_bind is_some]; [left; eauto | right; auto]. }
  destruct Hb as [(tl & br & -> & ->)|[-> ->]]; [|reflexivity].
  cbn [mbind result_bind andb].
  destruct (Qeq_bool (gt_det (offset_geotransform px_size skew)) 0) eqn:E.
  - apply Qeq_bool_iff in E. rewrite !get_pxcoord_undefined by exact E.
    reflexivity.
  - apply Qeq_bool_neq in E.
    destruct (get_pxcoord_defined _ (fst tl) (snd tl) E) as [r1 ->].
    cbn [mbind result_bind].
    destruct (get_pxcoord_defined _ (fst br) (snd br) E) as [r2 ->].
    reflexivity.
Qed.

Lemma get_feature_roi_fixed_crop_ok (geom : G) (px_size skew : Q * Q)
    (roi_buffer : option Q) (crop : Z) :
  crop <> 0%Z ->
  is_ok (get_feature_roi geom px_size skew roi_buffer (Some crop) None)
  = is_some (centroid (buffered geom roi_buffer))
    && negb (Qeq_bool (gt_det (offset_geotransform px_size skew)) 0).
Proof.
  intros Hc. rewrite get_feature_roi_fixed_crop_eq by assumption.
  unfold crop_offsets. rewrite get_feature_bbox_offsets.
  destruct (centroid _) as [c|]; [|reflexivity].
  cbn [coords mbind result_bind is_some andb].
  destruct (Qeq_bool (gt_det (offset_geotransform px_size skew)) 0) eqn:E.
  - apply Qeq_bool_iff in E. rewrite !get_pxcoord_undefined by exact E.
    reflexivity.
  - apply Qeq_bool_neq in E.
    match goal with
    | |- context [get_pxcoord ?gt ?x ?y] =>
        destruct (get_pxcoord_defined gt x y E) as [r1 ->]
    end.
    reflexivity.
Qed.

(** A call that returns had an invertible local transform. *)
Lemma get_feature_roi_fixed_crop_regular (geom : G) (px_size skew : Q * Q)
    (roi_buffer : option Q) (crop : Z) r :
  crop <> 0%Z ->
  get_feature_roi geom px_size skew roi_buffer (Some crop) None = Ok r ->
  ~ gt_det (offset_geotransform px_size skew) == 0.
Proof.
  intros Hc Hr.
  pose proof (get_feature_roi_fixed_crop_ok geom px_size skew roi_buffer
                crop Hc) as Hok.
  rewrite Hr in Hok. cbn [is_ok] in Hok. symmetry in Hok.
  apply andb_true_iff in Hok. destruct Hok as [_ Hok].
  apply negb_true_iff in Hok. now apply Qeq_bool_neq in Hok.
Qed.

Lemma get_feature_roi_no_pixel_crop_degenerate (geom : G)
    (px_size skew : Q * Q) (roi_buffer : option Q)
    (crop_real_size : option Q) :
  (if truthy_float crop_real_size
   then is_some (centroid (buffered geom roi_buffer))
   else is_some (bounds (buffered geom roi_buffer))) = true ->
  gt_det (offset_geotransform px_size skew) == 0 ->
  get_feature_roi geom px_size skew roi_buffer None crop_real_size
  = Err TransformNotInvertibleError.
Proof.
  intros He Hd. rewrite get_feature_roi_no_pixel_crop_eq.
  destruct (truthy_float crop_real_size).
  - rewrite get_feature_bbox_offsets.
    destruct (centroid _) as [c|]; [|discriminate].
    cbn [coords mbind result_bind]. rewrite !get_pxcoord_undefined by exact Hd. reflexivity.
  - rewrite get_feature_bbox_natural by reflexivity.
    destruct (bounds _) as [[[[b0 b1] b2] b3]|]; [|discriminate].
    cbn [coords mbind result_bind]. rewrite !get_pxcoord_undefined by exact Hd. reflexivity.
Qed.

(** X4: the ways [get_feature_roi] fails.  Two given crop sizes fail the
    assertion whatever the other arguments.  Otherwise a geometry that is
    empty after the optional buffering makes the call fail: it has no
    centroid to centre a crop on, and no bounds when no crop size is in
    force.  Otherwise a local transform whose determinant
    [px_w * px_h - skew_x * skew_y] is zero raises
    [TransformNotInvertibleError].  A call that returns has met none of
    the three. *)
Theorem get_feature_roi_failures (geom : G) (px_size skew : Q * Q)
    (roi_buffer : option Q) (crop_img_size : option Z)
    (crop_real_size : option Q) :
  (is_none crop_img_size || is_none crop_real_size = false ->
   get_feature_roi geom px_size skew roi_buffer crop_img_size crop_real_size
   = Err (AssertionError
            "should provide at most one type of crop resolution"))
  /\ (is_none crop_img_size || is_none crop_real_size = true ->
      (if truthy_int crop_img_size || truthy_float crop_real_size
       then is_some (centroid (buffered geom roi_buffer))
       else is_some (bounds (buffered geom roi_buffer))) = false ->
      is_ok (get_feature_roi geom px_size skew roi_buffer crop_img_size
               crop_real_size) = false)
  /\ (is_none crop_img_size || is_none crop_real_size = true ->
      (if truthy_int crop_img_size || truthy_float crop_real_size
       then is_some (centroid (buffered geom roi_buffer))
       else is_some (bounds (buffered geom roi_buffer))) = true ->
      gt_det (offset_geotransform px_size skew) == 0 ->
      get_feature_roi geom px_size skew roi_buffer crop_img_size
        crop_real_size = Err TransformNotInvertibleError)
  /\ (is_ok (get_feature_roi geom px_size skew roi_buffer crop_img_size
               crop_real_size) = true ->
      is_none crop_img_size || is_none crop_real_size = true
      /\ (if truthy_int crop_img_size || truthy_float crop_real_size
          then is_some (centroid (buffered geom roi_buffer))
          else is_some (bounds (buffered geom roi_buffer))) = true
      /\ ~ gt_det (offset_geotransform px_size skew) == 0).
Proof.
  destruct crop_img_size as [crop|].
  - destruct crop_real_size as [real|].
    { split; [reflexivity|]. repeat split; discriminate. }
    destruct (Z.eq_dec crop 0%Z) as [->|Hc].
    + rewrite get_feature_roi_zero_crop.
      pose proof (get_feature_roi_no_pixel_crop_ok geom px_size skew
                    roi_buffer None) as Hok.
      change (truthy_int (Some 0%Z) || truthy_float None) with false.
      change (truthy_float None) with false in Hok.
      cbn [is_none orb].
      split; [discriminate|]. split; [|split].
      * intros _ He. rewrite Hok, He. reflexivity.
      * intros _ He Hd.
        now apply get_feature_roi_no_pixel_crop_degenerate.
      * intros Hr. rewrite Hok in Hr. apply andb_true_iff in Hr.
        destruct Hr as [He Hd]. split; [reflexivity|]. split; [exact He|].
        apply negb_true_iff in Hd. now apply Qeq_bool_neq in Hd.
    + pose proof (get_feature_roi_fixed_crop_ok geom px_size skew
                    roi_buffer crop Hc) as Hok.
      assert (Ht : truthy_int (Some crop) = true)
        by (cbn; now apply negb_true_iff, Z.eqb_neq).
      rewrite Ht. cbn [is_none orb].
      split; [discriminate|]. split; [|split].
      * intros _ He. rewrite Hok, He. reflexivity.
      * intros _ He Hd.
        destruct (centroid (buffered geom roi_buffer)) as [c|] eqn:Ec;
          [|discriminate].
        now apply (get_feature_roi_degenerate _ _ _ _ _ c).
      * intros Hr. rewrite Hok in Hr. apply andb_true_iff in Hr.
        destruct Hr as [He Hd]. split; [reflexivity|]. split; [exact He|].
        apply negb_true_iff in Hd. now apply Qeq_bool_neq in Hd.
  - pose proof (get_feature_roi_no_pixel_crop_ok geom px_size skew
                  roi_buffer crop_real_size) as Hok.
    cbn [is_none orb truthy_int].
    split; [discriminate|]. split; [|split].
    + intros _ He. rewrite Hok, He. reflexivity.
    + intros _ He Hd.
      now apply get_feature_roi_no_pixel_crop_degenerate.
    + intros Hr. rewrite Hok in Hr. apply andb_true_iff in Hr.
      destruct Hr as [He Hd]. split; [reflexivity|]. split; [exact He|].
      apply negb_true_iff in Hd. now apply Qeq_bool_neq in Hd.
Qed.

End RoiMoreProps.

Lemma get_feature_roi_failures_witness :
  get_feature_roi (BoxModel.Box 3 7 45 21 "Polygon") (10, -10) (0, 0)
    None (Some 64%Z) (Some 5)
  = Err (AssertionError "should provide at most one type of crop resolution")
  /\ is_ok (get_feature_roi (BoxModel.Box 0 0 10 10 "Polygon") (1, 1) (0, 0)
              (Some (-6)) (Some 64%Z) None) = false
  /\ (is_ok (get_feature_roi (BoxModel.Box 3 7 45 21 "Polygon") (10, -10)
               (0, 0) None None None) = true
      /\ ~ gt_det (offset_geotransform (10, -10) (0, 0)) == 0).
Proof.
  assert (E : is_ok (get_feature_roi (BoxModel.Box 3 7 45 21 "Polygon")
                       (10, -10) (0, 0) None None None) = true)
    by (vm_compute; reflexivity).
  split; [|split; [|split; [exact E|]]].
  - exact (proj1 (get_feature_roi_failures (BoxModel.Box 3 7 45 21 "Polygon")
                    (10, -10) (0, 0) None (Some 64%Z) (Some 5)) eq_refl).
  - exact (proj1 (proj2 (get_feature_roi_failures
                           (BoxModel.Box 0 0 10 10 "Polygon") (1, 1) (0, 0)
                           (Some (-6)) (Some 64%Z) None)) eq_refl eq_refl).
  - exact (proj2 (proj2 (proj2 (proj2 (proj2
             (get_feature_roi_failures (BoxModel.Box 3 7 45 21 "Polygon")
                (10, -10) (0, 0) None None None))) E))).
Defined.

Section RoiWindowProps.
Context {G T : Type} `{GeometryLib G T}.

(** X5: with a nonzero pixel crop size, the two geo corners returned by
    [get_feature_roi] are the images of integer pixels exactly [crop]
    apart in both directions: mapped back by [get_pxcoord] they give
    [(c, r)] and [(c + crop, r + crop)]; the returned polygon lists the
    corners in the order tl, tr, br, bl. *)
Theorem get_feature_roi_fixed_crop_pixels (geom : G) (px_size skew : Q * Q)
    (roi_buffer : option Q) (crop : Z) roi roi_tl roi_br w h :
  crop <> 0%Z ->
  get_feature_roi geom px_size skew roi_buffer (Some crop) None
    = Ok (roi, roi_tl, roi_br, w, h) ->
  exists (c r : Z) (ptl pbr : point),
    get_pxcoord (offset_geotransform px_size skew) (fst roi_tl) (snd roi_tl)
      = Ok ptl
    /\ get_pxcoord (offset_geotransform px_size skew) (fst roi_br) (snd roi_br)
      = Ok pbr
    /\ pt_eq ptl (inject_Z c, inject_Z r)
    /\ pt_eq pbr (inject_Z (c + crop), inject_Z (r + crop))
    /\ roi = polygon [roi_tl; (fst roi_br, snd roi_tl); roi_br;
                      (fst roi_tl, snd roi_br)].
Proof.
  intros Hc Hr.
  pose proof (get_feature_roi_fixed_crop_regular _ _ _ _ _ _ Hc Hr) as Hd.
  rewrite get_feature_roi_fixed_crop_eq in Hr by assumption.
  destruct (get_feature_bbox _ _) as [[tl br]|e]; [|discriminate].
  cbn [mbind result_bind] in Hr.
  destruct (get_pxcoord _ (fst tl) (snd tl)) as [real|e]; [|discriminate].
  cbn [mbind result_bind fst snd] in Hr. injection Hr as <- <- <- <- <-.
  destruct (pixel_geo_pixel (offset_geotransform px_size skew)
              (inject_Z (Qfloor (fst real))) (inject_Z (Qfloor (snd real))) Hd)
    as (ptl & Hptl & Etl).
  destruct (pixel_geo_pixel (offset_geotransform px_size skew)
              (inject_Z (Qfloor (fst real) + crop))
              (inject_Z (Qfloor (snd real) + crop)) Hd)
    as (pbr & Hpbr & Ebr).
  exists (Qfloor (fst real)), (Qfloor (snd real)), ptl, pbr.
  repeat split; assumption || reflexivity || apply Etl || apply Ebr.
Qed.


End RoiWindowProps.

Lemma get_feature_roi_fixed_crop_pixels_witness :
  exists roi roi_tl roi_br (c r : Z) (ptl pbr : point),
    get_feature_roi (BoxModel.Box 3 7 45 21 "Polygon") (10, -10) (1, 2)
      (Some 5) (Some 64%Z) None = Ok (roi, roi_tl, roi_br, 64%Z, 64%Z)
    /\ get_pxcoord (offset_geotransform (10, -10) (1, 2))
         (fst roi_tl) (snd roi_tl) = Ok ptl
    /\ get_pxcoord (offset_geotransform (10, -10) (1, 2))
         (fst roi_br) (snd roi_br) = Ok pbr
    /\ pt_eq ptl (inject_Z c, inject_Z r)
    /\ pt_eq pbr (inject_Z (c + 64), inject_Z (r + 64))
    /\ roi = polygon [roi_tl; (fst roi_br, snd roi_tl); roi_br;
                      (fst roi_tl, snd roi_br)].
Proof.
  assert (Hc : (64 <> 0)%Z) by lia.
  do 3 eexists.
  assert (E : get_feature_roi (BoxModel.Box 3 7 45 21 "Polygon") (10, -10)
                (1, 2) (Some 5) (Some 64%Z) None = Ok (_, _, _, 64%Z, 64%Z))
    by (vm_compute; reflexivity).
  destruct (get_feature_roi_fixed_crop_pixels _ _ _ _ _ _ _ _ _ _ Hc E)
    as (c & r & ptl & pbr & Hrest).
  exists c, r, ptl, pbr. split; [exact E | exact Hrest].
Defined.


Section RoiNorthUp.
Context {G T : Type} `{GeometryLib G T}.

Lemma get_feature_bbox_ordered (geom : G) (offsets : option (list Q))
    (tl br : point) :
  get_feature_bbox geom offsets = Ok (tl, br) ->
  fst tl <= fst br /\ snd tl <= snd br.
Proof.
  destruct offsets as [[|o [|o' [|o'' rest]]]|].
  - rewrite get_feature_bbox_natural by reflexivity.
    destruct (bounds geom) as [[[[b0 b1] b2] b3]|]; [|discriminate].
    intros [= <- <-]. split; apply Qmin_le_Qmax.
  - rewrite get_feature_bbox_bad_offsets by (cbn; lia). discriminate.
  - rewrite get_feature_bbox_offsets.
    destruct (centroid geom) as [c|]; [|discriminate].
    intros [= <- <-]. split; apply Qmin_le_Qmax.
  - rewrite get_feature_bbox_bad_offsets by (cbn; lia). discriminate.
  - rewrite get_feature_bbox_natural by reflexivity.
    destruct (bounds geom) as [[[[b0 b1] b2] b3]|]; [|discriminate].
    intros [= <- <-]. split; apply Qmin_le_Qmax.
Qed.

Lemma Qceiling_le_floor_succ (x y : Q) :
  x <= y -> (Qceiling x <= Qfloor y + 1)%Z.
Proof.
  intros Hxy.
  assert (H1 : inject_Z (Qceiling x - 1) < inject_Z (Qfloor y + 1)).
  { eapply Qlt_trans; [apply Qceiling_lt|].
    eapply Qle_lt_trans; [exact Hxy | apply Qlt_floor]. }
  rewrite <- Zlt_Qlt in H1. lia.
Qed.

(** X7: on an unskewed grid whose pixel height is negative (a north-up
    raster), a call without a pixel crop size always returns the height
    1: the first bounding-box corner has the smaller y, hence the larger
    pixel row, and the negative row difference is clamped. *)
Theorem get_feature_roi_north_up_height (geom : G) (px_size skew : Q * Q)
    (roi_buffer : option Q) (crop_real_size : option Q) roi roi_tl roi_br w h :
  fst skew == 0 -> snd skew == 0 -> snd px_size < 0 ->
  get_feature_roi geom px_size skew roi_buffer None crop_real_size
    = Ok (roi, roi_tl, roi_br, w, h) ->
  h = 1%Z.
Proof.
  intros Hsx Hsy Hneg. rewrite get_feature_roi_no_pixel_crop_eq.
  destruct (get_feature_bbox _ _) as [[tl br]|e] eqn:Eb; [|discriminate].
  cbn [mbind result_bind].
  destruct (get_pxcoord _ (fst tl) (snd tl)) as [r1|e] eqn:E1; [|discriminate].
  cbn [mbind result_bind].
  destruct (get_pxcoord _ (fst br) (snd br)) as [r2|e] eqn:E2; [|discriminate].
  cbn [mbind result_bind fst snd]. intros [= _ _ _ _ <-].
  destruct (get_feature_bbox_ordered _ _ _ _ Eb) as [_ Hy].
  destruct (geo_pixel_geo _ _ _ _ E1) as [_ G1].
  destruct (geo_pixel_geo _ _ _ _ E2) as [_ G2].
  unfold get_geocoord, Affine.mul, affine_of, Affine.from_gdal,
    offset_geotransform in G1, G2.
  cbn [fst snd Affine.a Affine.b Affine.c Affine.d Affine.e Affine.f
       orig_x res_x skew_x orig_y skew_y res_y] in G1, G2.
  rewrite Hsy in G1, G2.
  assert (Hle : snd r2 <= snd r1).
  { destruct (Qlt_le_dec (snd r1) (snd r2)) as [Hlt|Hge]; [|exact Hge].
    exfalso. nra. }
  pose proof (Qceiling_le_floor_succ _ _ Hle). lia.
Qed.

End RoiNorthUp.

Lemma get_feature_roi_north_up_height_witness :
  0 == 0 /\ 0 == 0 /\ -10 < 0
  /\ exists roi roi_tl roi_br w h,
       get_feature_roi (BoxModel.Box 0 0 1000 1000 "Polygon")
         (10, -10) (0, 0) None None None = Ok (roi, roi_tl, roi_br, w, h)
       /\ w = 100%Z /\ h = 1%Z.
Proof.
  assert (H0 : 0 == 0) by reflexivity.
  assert (Hn : -10 < 0) by reflexivity.
  split; [exact H0|]. split; [exact H0|]. split; [exact Hn|].
  do 5 eexists.
  assert (E : get_feature_roi (BoxModel.Box 0 0 1000 1000 "Polygon")
                (10, -10) (0, 0) None None None = Ok (_, _, _, _, _))
    by (vm_compute; reflexivity).
  split; [exact E|]. split; [reflexivity|].
  exact (get_feature_roi_north_up_height _ (10, -10) (0, 0) _ _ _ _ _ _ _
           H0 H0 Hn E).
Defined.

(** ** Rasters *)

Section RasterProps.
Context {G S T : Type} `{GeometryLib G T} `{SrsLib S T}.

(** The loop body splits into the record and the write. *)
Lemma parse_raster_split (raster_path : string) (srs_target : option S)
    (reproj : bool) (fs : filesystem) :
  parse_raster (G := G) raster_path srs_target reproj fs
  = (rd ← raster_record raster_path srs_target reproj (fs_open fs raster_path);
     Ok (rd, after_reproj rd fs)).
Proof.
  unfold parse_raster, raster_record, after_reproj.
  destruct (fs_open fs raster_path) as [rf|]; [|reflexivity].
  cbn [mbind result_bind].
  destruct (if negb (str_in "unknown" (GetProjectionRef rf)) then _ else _)
    as [srs|e]; [|reflexivity].
  cbn [mbind result_bind].
  destruct (check_bands rf _ None) as [dt|e]; [|reflexivity].
  cbn [mbind result_bind].
  destruct srs_target as [tgt|]; [|reflexivity].
  destruct (is_same srs tgt); cbn [negb andb]; [reflexivity|].
  destruct reproj; cbn [rd_reproj_path]; [|reflexivity].
  destruct (bool_decide _); reflexivity.
Qed.

Lemma raster_record_path (p : string) (tgt : option S) (reproj : bool)
    (opened : option raster_file) (rd : raster_data G S) :
  raster_record p tgt reproj opened = Ok rd ->
  rd_file_path rd = p
  /\ (forall q, rd_reproj_path rd = Some q ->
        q = (p ++ ".reproj.tif")%string /\ reproj = true /\ tgt <> None)
  /\ exists rf,
       opened = Some rf
       /\ check_bands rf (py_range (RasterCount rf)) None = Ok (rd_data_type rd)
       /\ (tgt = None -> str_in "unknown" (GetProjectionRef rf) = false).
Proof.
  unfold raster_record.
  destruct opened as [rf|]; [|discriminate]. cbn [mbind result_bind].
  destruct (str_in "unknown" (GetProjectionRef rf)) eqn:Eu; cbn [negb].
  - destruct tgt as [tgt|]; [|discriminate]. cbn [mbind result_bind].
    destruct (check_bands rf _ None) as [dt|e] eqn:Ec; [|discriminate].
    cbn [mbind result_bind]. intros [= <-]. cbn.
    split; [reflexivity|]. split.
    + destruct (negb (is_same tgt tgt) && reproj) eqn:E;
        [|intros q; discriminate].
      intros q [= <-]. apply andb_true_iff in E. destruct E as [_ ->].
      repeat split; done.
    + exists rf. split; [reflexivity|]. split; [exact Ec|]. intros [=].
  - cbn [mbind result_bind].
    destruct (check_bands rf _ None) as [dt|e] eqn:Ec; [|discriminate].
    cbn [mbind result_bind]. intros [= <-]. cbn.
    split; [reflexivity|]. split.
    + destruct tgt as [tgt|]; [|intros q; discriminate].
      destruct (negb (is_same _ tgt) && reproj) eqn:E;
        [|intros q; discriminate].
      intros q [= <-]. apply andb_true_iff in E. destruct E as [_ ->].
      repeat split; done.
    + exists rf. split; [reflexivity|]. split; [exact Ec|].
      intros _. exact Eu.
Qed.

Lemma after_reproj_spec (rd : raster_data G S) (fs : filesystem) :
  fs_open (after_reproj rd fs) = fs_open fs
  /\ fs_exists (after_reproj rd fs)
     = match rd_reproj_path rd with
       | Some q => {[q]} ∪ fs_exists fs
       | None => fs_exists fs
       end.
Proof.
  unfold after_reproj. destruct (rd_reproj_path rd) as [q|]; [|done].
  case_bool_decide; [|done]. split; [done|].
  apply set_eq. intros x. rewrite elem_of_union, elem_of_singleton.
  split; [intros Hx; now right | intros [->|Hx]; assumption].
Qed.



(** The loop, when it returns: one record per path, in order, each built
    from what the path opens to; the files it leaves. *)
Lemma parse_rasters_loop_ok (tgt : option S) (reproj : bool)
    (paths : list string) :
  forall (fs fs' : filesystem) (acc rds : list (raster_data G S)),
    parse_rasters_loop paths tgt reproj fs acc = (Ok rds, fs') ->
    exists new,
      rds = acc ++ new
      /\ Forall2 (fun p rd => raster_record p tgt reproj (fs_open fs p) = Ok rd)
           paths new
      /\ fs_open fs' = fs_open fs
      /\ (forall q, q ∈ fs_exists fs' <->
            q ∈ fs_exists fs
            \/ exists rd, In rd new /\ rd_reproj_path rd = Some q).
Proof.
  induction paths as [|p rest IH]; intros fs fs' acc rds Hl;
    cbn [parse_rasters_loop] in Hl.
  - injection Hl as <- <-. exists []. rewrite app_nil_r.
    repeat split; try constructor; try tauto.
    intros [Hq|(rd & [] & _)]. exact Hq.
  - rewrite parse_raster_split in Hl.
    destruct (raster_record p tgt reproj (fs_open fs p)) as [rd|e] eqn:Er;
      [|discriminate].
    cbn [mbind result_bind] in Hl.
    destruct (IH _ _ _ _ Hl) as (new & -> & Hall & Hopen & Hex).
    destruct (after_reproj_spec rd fs) as [Ho1 He1].
    exists (rd :: new). split; [now rewrite <- app_assoc|].
    split.
    { constructor; [exact Er|]. rewrite Ho1 in Hall. exact Hall. }
    split; [now rewrite Hopen|].
    intros q. rewrite Hex, He1. split.
    + intros [Hq|(rd' & Hi & Hrd')].
      * destruct (rd_reproj_path rd) as [q0|] eqn:Eq; [|now left].
        apply elem_of_union in Hq. destruct Hq as [Hq|Hq]; [|now left].
        apply elem_of_singleton in Hq. subst q0.
        right. exists rd. split; [now left | exact Eq].
      * right. exists rd'. split; [now right | exact Hrd'].
    + intros [Hq|(rd' & [<-|Hi] & Hrd')].
      * left. destruct (rd_reproj_path rd); [|exact Hq].
        apply elem_of_union. now right.
      * left. rewrite Hrd'. apply elem_of_union. left.
        now apply elem_of_singleton.
      * right. exists rd'. split; assumption.
Qed.



End RasterProps.

Section RasterTheorems.
Context {G S T : Type} `{GeometryLib G T} `{SrsLib S T}.

Lemma parse_rasters_unfold (paths : list string)
    (srs_target : option (@srs_spec S)) (reproj : bool) (fs : filesystem) :
  parse_rasters (G := G) paths srs_target reproj fs
  = match resolve_srs_target srs_target with
    | Err e => (Err e, fs)
    | Ok tgt =>
        match parse_rasters_loop (List.filter not_reproj paths) tgt reproj fs []
        with
        | (Err e, fs') => (Err e, fs')
        | (Ok rds, fs') =>
            (Ok (rds, cascaded_union (map rd_target_roi rds)), fs')
        end
    end.
Proof. reflexivity. Qed.

Lemma parse_rasters_ok (paths : list string)
    (srs_target : option (@srs_spec S)) (reproj : bool) (fs fs' : filesystem)
    (rds : list (raster_data G S)) (coverage : G) :
  parse_rasters paths srs_target reproj fs = (Ok (rds, coverage), fs') ->
  exists tgt,
    resolve_srs_target srs_target = Ok tgt
    /\ (srs_target = None -> tgt = None)
    /\ parse_rasters_loop (List.filter not_reproj paths) tgt reproj fs []
       = (Ok rds, fs')
    /\ coverage = cascaded_union (map rd_target_roi rds).
Proof.
  rewrite parse_rasters_unfold.
  destruct (resolve_srs_target srs_target) as [tgt|e] eqn:Et; [|discriminate].
  destruct (parse_rasters_loop _ tgt reproj fs []) as [[r|e] f] eqn:El;
    [|discriminate].
  intros [= <- <- <-]. exists tgt. split; [reflexivity|].
  split; [|split; [exact El | reflexivity]].
  intros ->. cbn in Et. now injection Et as <-.
Qed.

Lemma records_paths (tgt : option S) (reproj : bool) (fs : filesystem)
    (paths : list string) (rds : list (raster_data G S)) :
  Forall2 (fun p rd => raster_record p tgt reproj (fs_open fs p) = Ok rd)
    paths rds ->
  map rd_file_path rds = paths.
Proof.
  induction 1 as [|p rd paths rds Hr _ IH]; [reflexivity|].
  cbn [map]. rewrite IH.
  destruct (raster_record_path _ _ _ _ _ Hr) as (-> & _). reflexivity.
Qed.

Lemma records_lookup (tgt : option S) (reproj : bool) (fs : filesystem)
    (paths : list string) (rds : list (raster_data G S)) (p : string) :
  Forall2 (fun p rd => raster_record p tgt reproj (fs_open fs p) = Ok rd)
    paths rds ->
  In p paths ->
  exists rf rd,
    fs_open fs p = Some rf
    /\ In rd rds /\ rd_file_path rd = p
    /\ check_bands rf (py_range (RasterCount rf)) None = Ok (rd_data_type rd)
    /\ (tgt = None -> str_in "unknown" (GetProjectionRef rf) = false).
Proof.
  induction 1 as [|p0 rd ps rs Hrec _ IH]; [intros []|].
  intros [->|Hf].
  - destruct (raster_record_path _ _ _ _ _ Hrec) as (Hp & _ & rf & Ho & Hc & Hu).
    exists rf, rd. split; [exact Ho|]. split; [now left|].
    split; [exact Hp|]. split; [exact Hc | exact Hu].
  - destruct (IH Hf) as (rf & rd' & Ho & Hin & Hrest).
    exists rf, rd'. split; [exact Ho|]. split; [now right | exact Hrest].
Qed.

(** X8: when [parse_rasters] returns, it returns one record per input
    path that does not end in [.reproj.tif], in the order of the input;
    paths that name a reprojection are never opened as inputs, and the
    coverage is the union of the records' target ROIs. *)
Theorem parse_rasters_records (paths : list string)
    (srs_target : option (@srs_spec S)) (reproj : bool) (fs fs' : filesystem)
    (rds : list (raster_data G S)) (coverage : G) :
  parse_rasters paths srs_target reproj fs = (Ok (rds, coverage), fs') ->
  map rd_file_path rds = List.filter not_reproj paths
  /\ (forall rd, In rd rds ->
        In (rd_file_path rd) paths
        /\ ends_with (rd_file_path rd) ".reproj.tif" = false)
  /\ coverage = cascaded_union (map rd_target_roi rds).
Proof.
  intros Hr. destruct (parse_rasters_ok _ _ _ _ _ _ _ Hr)
    as (tgt & _ & _ & Hl & Hc).
  destruct (parse_rasters_loop_ok _ _ _ _ _ _ _ Hl)
    as (new & -> & Hall & _). cbn [app] in *.
  pose proof (records_paths _ _ _ _ _ Hall) as Hp.
  split; [exact Hp|]. split; [|exact Hc].
  intros rd Hi. apply (in_map rd_file_path) in Hi. rewrite Hp in Hi.
  apply filter_In in Hi. destruct Hi as [Hi Hn]. split; [exact Hi|].
  unfold not_reproj in Hn. now apply negb_true_iff in Hn.
Qed.

(** X9: [parse_rasters] is all or nothing: when it returns, every input
    path that does not end in [.reproj.tif] could be opened, passed the
    band validation with the data type recorded for it, and, when no
    target SRS was given, carried a projection that is not unknown. *)
Theorem parse_rasters_all_valid (paths : list string)
    (srs_target : option (@srs_spec S)) (reproj : bool) (fs fs' : filesystem)
    (rds : list (raster_data G S)) (coverage : G) (p : string) :
  parse_rasters paths srs_target reproj fs = (Ok (rds, coverage), fs') ->
  In p paths -> ends_with p ".reproj.tif" = false ->
  exists rf rd,
    fs_open fs p = Some rf
    /\ In rd rds /\ rd_file_path rd = p
    /\ check_bands rf (py_range (RasterCount rf)) None = Ok (rd_data_type rd)
    /\ (srs_target = None -> str_in "unknown" (GetProjectionRef rf) = false).
Proof.
  intros Hr Hi Hn. destruct (parse_rasters_ok _ _ _ _ _ _ _ Hr)
    as (tgt & _ & Hnone & Hl & _).
  destruct (parse_rasters_loop_ok _ _ _ _ _ _ _ Hl)
    as (new & -> & Hall & _). cbn [app] in *.
  assert (Hf : In p (List.filter not_reproj paths)).
  { apply filter_In. split; [exact Hi|]. unfold not_reproj. now rewrite Hn. }
  destruct (records_lookup _ _ _ _ _ _ Hall Hf)
    as (rf & rd & Ho & Hin & Hp & Hc & Hu).
  exists rf, rd. repeat (split; [assumption|]).
  intros Hs. apply Hu. now apply Hnone.
Qed.





End RasterTheorems.

Lemma parse_rasters_records_witness :
  exists rds coverage fs',
    parse_rasters (G := BoxModel.box) (S := BoxModel.epsg) sample_paths
      (Some (SrsStr "EPSG:4326")) true sample_files = (Ok (rds, coverage), fs')
    /\ map rd_file_path rds = ["a.tif"; "b.tif"]%string
    /\ map rd_file_path rds = List.filter not_reproj sample_paths
    /\ (forall rd, In rd rds ->
          In (rd_file_path rd) sample_paths
          /\ ends_with (rd_file_path rd) ".reproj.tif" = false)
    /\ coverage = cascaded_union (map rd_target_roi rds).
Proof.
  do 3 eexists.
  assert (E : parse_rasters (G := BoxModel.box) (S := BoxModel.epsg)
                sample_paths (Some (SrsStr "EPSG:4326")) true sample_files
              = (Ok (_, _), _)) by (vm_compute; reflexivity).
  split; [exact E|]. split; [reflexivity|].
  exact (parse_rasters_records _ _ _ _ _ _ _ E).
Defined.

Lemma parse_rasters_all_valid_witness :
  exists rds coverage fs',
    parse_rasters (G := BoxModel.box) (S := BoxModel.epsg) sample_paths
      None false sample_files = (Ok (rds, coverage), fs')
    /\ In "b.tif"%string sample_paths
    /\ ends_with "b.tif" ".reproj.tif" = false
    /\ exists rf rd,
        fs_open sample_files "b.tif" = Some rf
        /\ In rd rds /\ rd_file_path rd = "b.tif"%string
        /\ check_bands rf (py_range (RasterCount rf)) None = Ok (rd_data_type rd)
        /\ (@None (@srs_spec BoxModel.epsg) = None ->
            str_in "unknown" (GetProjectionRef rf) = false).
Proof.
  do 3 eexists.
  assert (E : parse_rasters (G := BoxModel.box) (S := BoxModel.epsg)
                sample_paths None false sample_files
              = (Ok (_, _), _)) by (vm_compute; reflexivity).
  assert (Hi : In "b.tif"%string sample_paths) by (cbn; tauto).
  assert (Hn : ends_with "b.tif" ".reproj.tif" = false) by reflexivity.
  split; [exact E|]. split; [exact Hi|]. split; [exact Hn|].
  exact (parse_rasters_all_valid _ _ _ _ _ _ _ _ E Hi Hn).
Defined.



(** ** Raster bands, continued *)

Lemma py_range_pos (n : Z) :
  (0 < n)%Z -> exists rest, py_range n = 0%Z :: rest.
Proof.
  intros Hn. unfold py_range.
  destruct (Z.to_nat n) as [|k] eqn:E; [lia|].
  cbn. eauto.
Qed.

(** X12: a raster without bands passes the band loop with no data type;
    a raster whose bands all exist and whose first band has a nonzero
    data type [t] passes exactly when every band has the type [t], the
    recorded type being [t], and fails with the identical-data-types
    assertion otherwise. *)
Theorem check_bands_first_nonzero (rasterfile : raster_file) (n : Z) :
  ((n <= 0)%Z -> check_bands rasterfile (py_range n) None = Ok None)
  /\ ((0 < n)%Z ->
      (forall i, In i (py_range n) ->
         GetRasterBand rasterfile (i + 1)%Z <> None) ->
      type_at rasterfile 0 <> 0%Z ->
      check_bands rasterfile (py_range n) None
      = if forallb (fun i => (type_at rasterfile 0 =? type_at rasterfile i)%Z)
             (py_range n)
        then Ok (Some (type_at rasterfile 0))
        else Err (AssertionError "expected identical data types in all bands")).
Proof.
  split.
  - intros Hn. unfold py_range. now replace (Z.to_nat n) with 0%nat by lia.
  - intros Hn Hb Ht. destruct (py_range_pos n Hn) as [rest Er].
    rewrite Er in *. cbn [check_bands forallb].
    destruct (GetRasterBand rasterfile (0 + 1)%Z) as [b|] eqn:Eb.
    + assert (Ht0 : type_at rasterfile 0 = DataType b)
        by (unfold type_at; now rewrite Eb).
      rewrite Ht0 in *.
      change (truthy_int None) with false. cbv iota.
      cbn [default]. rewrite !Z.eqb_refl. cbn [assert mbind result_bind andb].
      apply check_bands_recorded; [exact Ht|].
      intros i Hi. apply Hb. now right.
    + exfalso. apply (Hb 0%Z); [now left | exact Eb].
Qed.

Lemma check_bands_first_nonzero_witness :
  check_bands (raster_with_bands [3; 3; 2]%Z) (py_range 3) None
  = Err (AssertionError "expected identical data types in all bands").
Proof.
  apply (proj2 (check_bands_first_nonzero (raster_with_bands [3; 3; 2]%Z) 3)).
  - lia.
  - intros i Hi. cbn in Hi.
    destruct Hi as [<-|[<-|[<-|[]]]]; discriminate.
  - discriminate.
Defined.

(** ** Coordinate reference systems, continued *)

Section CrsMoreProps.
Context {S T : Type} `{SrsLib S T}.

(** X13: for a descriptor of one of the six importer kinds (read in upper
    case), [parse_coordinate_system] calls that importer with the values
    of [properties] in their order, returns the imported object when the
    importer's error code is 0, fails with the could-not-identify
    assertion for any other code, and lets the importer's own exception
    through. *)
Theorem parse_coordinate_system_importer (body d : dict) (ty : string)
    (k : importer) (opts : list pyval) :
  py_or (py_get body "crs") (py_get body "srs") = PDict d ->
  crs_type_of d = Some ty ->
  importer_of_name ty = Some k ->
  crs_opts_of d = Some opts ->
  parse_coordinate_system body
  = match import_from k opts new_srs with
    | Ok (code, srs) =>
        if (code =? 0)%Z then Ok srs
        else Err (AssertionError "could not identify CRS/SRS type")
    | Err e => Err e
    end.
Proof.
  intros Hb Hty Hk Ho. unfold parse_coordinate_system. rewrite Hb.
  cbn [mbind result_bind]. unfold crs_type_of, crs_opts_of in *.
  destruct (default (PStr "") (dict_get d "type")) as [| | | |s| |];
    try discriminate.
  injection Hty as Hty. rewrite Hty. cbn [mbind result_bind].
  destruct (py_get d "properties") as [| | | | | |p]; try discriminate.
  injection Ho as Ho. rewrite Ho. cbn [mbind result_bind].
  unfold importer_of_name in Hk.
  repeat match type of Hk with
         | (if ?c then _ else _) = _ => destruct c
         end; try discriminate; injection Hk as <-;
    (destruct (import_from _ opts new_srs) as [[code srs]|e];
     cbn [mbind result_bind]; [|reflexivity];
     destruct (code =? 0)%Z; reflexivity).
Qed.

End CrsMoreProps.

Lemma parse_coordinate_system_importer_witness :
  parse_coordinate_system (S := BoxModel.epsg)
    [("srs"%string,
      PDict [("properties"%string, PDict [("code"%string, PInt (-1))]);
             ("type"%string, PStr "Epsg")])]
  = Err (AssertionError "could not identify CRS/SRS type").
Proof.
  exact (parse_coordinate_system_importer (S := BoxModel.epsg)
           [("srs"%string,
             PDict [("properties"%string, PDict [("code"%string, PInt (-1))]);
                    ("type"%string, PStr "Epsg")])]
           [("properties"%string, PDict [("code"%string, PInt (-1))]);
            ("type"%string, PStr "Epsg")]
           "EPSG" EPSG [PInt (-1)] eq_refl eq_refl eq_refl eq_refl).
Defined.

(** ** Feature collections, continued *)

Section GeoJsonMoreProps.
Context {G S T : Type} `{GeometryLib G T} `{SrsLib S T}.

(** X14: without an ROI, a call of [parse_geojson] that returns has kept
    every feature: the returned list is the input list. *)
Theorem parse_geojson_no_roi_keeps_all gj srs_target allow clip
    (h h' : heap G) kept :
  parse_geojson gj srs_target None allow clip h = (Ok kept, h') ->
  gj_features gj = FeaturesList kept.
Proof.
  intros Hr. destruct (parse_geojson_ok _ _ _ _ _ _ _ _ Hr)
    as (features & tr & Hf & Ht & Hl).
  destruct (parse_features_loop_ok _ _ _ _ _ _ _ _ _ Hl)
    as (Hnd & Hk & Hin & Hout). cbn [app] in Hk.
  rewrite Hf. f_equal. rewrite Hk. symmetry.
  apply forallb_filter_id. apply forallb_forall. intros l Hi.
  destruct (Hin l Hi) as (f & g & t & Hfl & Hp & _).
  unfold keeps. now rewrite Hfl, Hp.
Qed.

(** X15: a feature whose geometry is neither a Polygon nor a
    MultiPolygon is not skipped: wherever it stands in the list, the
    whole call fails. *)
Theorem parse_geojson_unsupported_geometry gj srs_target roi allow clip
    (h : heap G) features l (f : feature G) d s :
  gj_features gj = FeaturesList features ->
  In l features ->
  h !! l = Some f ->
  dict_get f "geometry" = Some (FVal (PDict d)) ->
  dict_get d "type" = Some (PStr s) ->
  is_geom_type s = false ->
  exists e h', parse_geojson gj srs_target roi allow clip h = (Err e, h').
Proof.
  intros Hf Hi Hl Hg Ht Hs.
  destruct (parse_geojson gj srs_target roi allow clip h) as [[kept|e] h'] eqn:Hr;
    [|eauto].
  exfalso. destruct (parse_geojson_ok _ _ _ _ _ _ _ _ Hr)
    as (features' & tr & Hf' & _ & Hloop).
  rewrite Hf in Hf'. injection Hf' as <-.
  destruct (parse_features_loop_ok _ _ _ _ _ _ _ _ _ Hloop)
    as (_ & _ & Hin & _).
  destruct (Hin l Hi) as (f' & g & t & Hfl & Hp & _).
  rewrite Hl in Hfl. injection Hfl as <-.
  destruct (parse_geometry_type _ _ _ _ Hp) as (d' & Hg' & Ht' & Hgt).
  rewrite Hg in Hg'. injection Hg' as <-.
  rewrite Ht in Ht'. injection Ht' as <-.
  rewrite Hs in Hgt. discriminate.
Qed.

(** X16: when [parse_geojson] returns, no feature object was listed
    twice in the input (the second visit of an object raises), and the
    returned list is a selection of the input list in its order, hence
    without repetition too. *)
Theorem parse_geojson_distinct gj srs_target roi allow clip
    (h h' : heap G) kept :
  parse_geojson gj srs_target roi allow clip h = (Ok kept, h') ->
  exists features (keep : loc -> bool),
    gj_features gj = FeaturesList features
    /\ NoDup features
    /\ kept = List.filter keep features
    /\ NoDup kept.
Proof.
  intros Hr. destruct (parse_geojson_ok _ _ _ _ _ _ _ _ Hr)
    as (features & tr & Hf & Ht & Hl).
  destruct (parse_features_loop_ok _ _ _ _ _ _ _ _ _ Hl)
    as (Hnd & Hk & _ & _). cbn [app] in Hk.
  exists features, (keeps tr roi allow h).
  repeat (split; [assumption|]).
  rewrite Hk. apply NoDup_ListNoDup, List.NoDup_filter, NoDup_ListNoDup, Hnd.
Qed.

Lemma parse_feature_frame tr roi allow clip (l l' : loc) (h : heap G) :
  l' <> l ->
  snd (parse_feature tr roi allow clip l h) !! l' = h !! l'.
Proof.
  intros Hne. unfold parse_feature.
  destruct (h !! l) as [f|]; [|reflexivity].
  destruct (parse_geometry tr f) as [[g t]|e]; [|reflexivity].
  destruct roi as [r|]; cbv zeta.
  - destruct (roi_keeps r allow g); [destruct clip|];
      [destruct (is_geom_type _)| |]; cbn [snd];
      rewrite ?lookup_insert_ne by congruence; reflexivity.
  - cbn [snd]. now rewrite lookup_insert_ne by congruence.
Qed.

Lemma parse_features_loop_frame tr roi allow clip (features : list loc)
    (l' : loc) :
  forall kept (h : heap G),
    ~ In l' features ->
    snd (parse_features_loop tr roi allow clip features kept h) !! l' = h !! l'.
Proof.
  induction features as [|l rest IH]; intros kept h Hn;
    cbn [parse_features_loop]; [reflexivity|].
  pose proof (parse_feature_frame tr roi allow clip l l' h) as Hf.
  destruct (parse_feature tr roi allow clip l h) as [[keep|e] h1].
  - rewrite IH by (intros Hi; apply Hn; now right).
    apply Hf. intros ->. apply Hn. now left.
  - apply Hf. intros ->. apply Hn. now left.
Qed.

(** X17: whether it returns or raises, [parse_geojson] leaves every
    object of the store that is not listed in [features] as it was. *)
Theorem parse_geojson_frame gj srs_target roi allow clip (h : heap G)
    (l : loc) :
  (forall features, gj_features gj = FeaturesList features -> ~ In l features) ->
  snd (parse_geojson gj srs_target roi allow clip h) !! l = h !! l.
Proof.
  intros Hn. unfold parse_geojson.
  destruct (gj_features gj) as [|v|features]; try reflexivity.
  destruct (srs_transform_of gj srs_target) as [tr|e]; [|reflexivity].
  apply parse_features_loop_frame. now apply Hn.
Qed.

End GeoJsonMoreProps.

Lemma parse_geojson_no_roi_keeps_all_witness :
  exists kept h',
    parse_geojson (S := BoxModel.epsg) sample_collection (Some (SrsInt 32618))
      None false false sample_heap = (Ok kept, h')
    /\ gj_features sample_collection = FeaturesList kept.
Proof.
  pose (r := parse_geojson (S := BoxModel.epsg) sample_collection
               (Some (SrsInt 32618)) None false false sample_heap).
  assert (E : r = (Ok [0%nat; 1%nat; 2%nat], snd r)) by (vm_compute; reflexivity).
  exists [0%nat; 1%nat; 2%nat], (snd r). split; [exact E|].
  exact (parse_geojson_no_roi_keeps_all _ _ _ _ _ _ _ E).
Defined.

Lemma parse_geojson_unsupported_geometry_witness :
  exists e h',
    parse_geojson (S := BoxModel.epsg) sample_collection_with_point None
      (Some sample_roi) true false sample_heap_with_point = (Err e, h').
Proof.
  apply (parse_geojson_unsupported_geometry (S := BoxModel.epsg)
           sample_collection_with_point None (Some sample_roi) true false
           sample_heap_with_point [0%nat; 3%nat; 1%nat] 3%nat point_feature
           [ ("type"%string, PStr "Point");
             ("coordinates"%string, PList [PInt 1; PInt 2]) ] "Point").
  - reflexivity.
  - cbn. tauto.
  - vm_compute. reflexivity.
  - reflexivity.
  - reflexivity.
  - reflexivity.
Defined.

Lemma parse_geojson_distinct_witness :
  exists kept h',
    parse_geojson (S := BoxModel.epsg) sample_collection None
      (Some sample_roi) false true sample_heap = (Ok kept, h')
    /\ exists features (keep : loc -> bool),
        gj_features sample_collection = FeaturesList features
        /\ NoDup features
        /\ kept = List.filter keep features
        /\ NoDup kept.
Proof.
  pose (r := parse_geojson (S := BoxModel.epsg) sample_collection None
               (Some sample_roi) false true sample_heap).
  assert (E : r = (Ok [0%nat], snd r)) by (vm_compute; reflexivity).
  exists [0%nat], (snd r). split; [exact E|].
  exact (parse_geojson_distinct _ _ _ _ _ _ _ _ E).
Defined.

Lemma parse_geojson_frame_witness :
  (forall features,
      gj_features sample_collection_with_point = FeaturesList features ->
      ~ In 2%nat features)
  /\ snd (parse_geojson (S := BoxModel.epsg) sample_collection_with_point None
            (Some sample_roi) true false sample_heap_with_point) !! 2%nat
     = sample_heap_with_point !! 2%nat.
Proof.
  assert (Hn : forall features,
             gj_features sample_collection_with_point = FeaturesList features ->
             ~ In 2%nat features).
  { intros features [= <-]. cbn. intros [Hx|[Hx|[Hx|[]]]]; discriminate. }
  split; [exact Hn|].
  exact (parse_geojson_frame (S := BoxModel.epsg) sample_collection_with_point
           None (Some sample_roi) true false sample_heap_with_point 2%nat Hn).
Defined.

(** ** Polygon validation *)

Lemma points_of_length (l : list pyval) (pts : list point) :
  points_of l = Ok pts -> length pts = length l.
Proof.
  revert pts. induction l as [|v l IH]; intros pts; cbn [points_of].
  - now intros [= <-].
  - destruct (point_of v) as [p|e]; cbn [mbind result_bind]; [|discriminate].
    destruct (points_of l) as [ps|e]; cbn [mbind result_bind]; [|discriminate].
    intros [= <-]. cbn. f_equal. now apply IH.
Qed.

Section PolygonProps.
Context {G T : Type} `{GeometryLib G T}.

(** X18: a feature that [parse_geometry] accepts as a Polygon carries
    exactly one coordinate ring (no holes), a list of at least four
    elements that are all two-element lists; the geometry object is built
    from exactly these points, in their order, and then reprojected. *)
Theorem parse_geometry_polygon_inv (tr : option T) (f : feature G) (g : G) :
  parse_geometry tr f = Ok (g, "Polygon"%string) ->
  exists d ring pts,
    dict_get f "geometry" = Some (FVal (PDict d))
    /\ dict_get d "type" = Some (PStr "Polygon")
    /\ dict_get d "coordinates" = Some (PList [PList ring])
    /\ (4 <= length ring)%nat
    /\ forallb is_pair ring = true
    /\ points_of ring = Ok pts
    /\ length pts = length ring
    /\ g = reproject tr (polygon pts).
Proof.
  intros Hp. destruct (parse_geometry_type _ _ _ _ Hp) as (d & Hg & Ht & _).
  exists d. revert Hp. unfold parse_geometry. rewrite Hg. cbn [mbind result_bind].
  rewrite Ht. cbn -[points_of forallb Nat.leb].
  destruct (dict_get d "coordinates") as [v|] eqn:Ec;
    cbn [mbind result_bind]; [|discriminate].
  destruct v as [| | | | |coords|]; cbn [mbind result_bind]; try discriminate.
  destruct coords as [|c0 [|c1 rest]]; cbn -[points_of forallb Nat.leb];
    try discriminate.
  destruct c0 as [| | | | |ring|]; cbn -[points_of forallb Nat.leb]; try discriminate.
  destruct (forallb is_pair ring) eqn:Ef; cbn -[points_of Nat.leb];
    [|discriminate].
  destruct (4 <=? length ring)%nat eqn:El; cbn -[points_of Nat.leb];
    [|discriminate].
  destruct (points_of ring) as [pts|e] eqn:Epts; cbn; [|discriminate].
  intros [= <-]. exists ring, pts.
  repeat split; try reflexivity; try assumption.
  - now apply Nat.leb_le in El.
  - now apply points_of_length.
Qed.

End PolygonProps.

Lemma parse_geometry_polygon_inv_witness :
  exists g d ring pts,
    parse_geometry (G := BoxModel.box) None (square 2 2 4 4)
      = Ok (g, "Polygon"%string)
    /\ dict_get (square 2 2 4 4) "geometry" = Some (FVal (PDict d))
    /\ dict_get d "type" = Some (PStr "Polygon")
    /\ dict_get d "coordinates" = Some (PList [PList ring])
    /\ (4 <= length ring)%nat
    /\ forallb is_pair ring = true
    /\ points_of ring = Ok pts
    /\ length pts = length ring
    /\ g = reproject None (polygon pts).
Proof.
  eexists.
  assert (E : parse_geometry (G := BoxModel.box) None (square 2 2 4 4)
              = Ok (_, "Polygon"%string)) by reflexivity.
  destruct (parse_geometry_polygon_inv _ _ _ E) as (d & ring & pts & Hrest).
  exists d, ring, pts. split; [exact E | exact Hrest].
Defined.

(** ** Coordinate lists *)

Section ReprojectProps.
Context {S T : Type} `{SrsLib S T} `{PointTransform T}.

Lemma reproject_coords_loop_spec (tr : T) (coords acc : list point) :
  reproject_coords_loop tr coords acc
  = acc ++ map (fun p => fst (transform_point tr (fst p) (snd p))) coords.
Proof.
  revert acc. induction coords as [|[x y] rest IH]; intros acc;
    cbn [reproject_coords_loop map].
  - now rewrite app_nil_r.
  - cbn [fst snd]. destruct (transform_point tr x y) as [[x' y'] z].
    rewrite IH, <- app_assoc. reflexivity.
Qed.

(** X19: [reproject_coords] transforms each point on its own and keeps
    the order: the result is the list of the [(x, y)] parts of
    [TransformPoint] of each input point (the z part is dropped), it has
    the length of the input, and reprojecting a concatenation gives the
    concatenation of the reprojections. *)
Theorem reproject_coords_pointwise (src_srs tgt_srs : S) :
  (forall coords,
      reproject_coords coords src_srs tgt_srs
      = map (fun p => fst (transform_point
                             (coordinate_transformation src_srs tgt_srs)
                             (fst p) (snd p))) coords)
  /\ (forall coords,
        length (reproject_coords coords src_srs tgt_srs) = length coords)
  /\ (forall c1 c2,
        reproject_coords (c1 ++ c2) src_srs tgt_srs
        = reproject_coords c1 src_srs tgt_srs
          ++ reproject_coords c2 src_srs tgt_srs).
Proof.
  assert (Hmap : forall coords,
             reproject_coords coords src_srs tgt_srs
             = map (fun p => fst (transform_point
                                    (coordinate_transformation src_srs tgt_srs)
                                    (fst p) (snd p))) coords).
  { intros coords. unfold reproject_coords.
    now rewrite reproject_coords_loop_spec. }
  split; [exact Hmap|]. split.
  - intros coords. now rewrite Hmap, length_map.
  - intros c1 c2. now rewrite !Hmap, map_app.
Qed.

End ReprojectProps.

(** ** Type conversion tables *)

(** X20: every numpy type of [NUMPY2GDAL_TYPE_CONV] has a GDAL type, and
    converting back with [GDAL2NUMPY_TYPE_CONV] gives the same numpy type
    except for [int8], which comes back as [uint8]; every GDAL type but
    [GDT_Unknown] has a numpy type, and converting back gives the same
    GDAL type except for [GDT_CInt16] and [GDT_CInt32], which come back
    as [GDT_CFloat32]. *)
Theorem type_tables_round_trip :
  (forall n,
      exists g,
        table_get NUMPY2GDAL_TYPE_CONV n = Some g
        /\ table_get GDAL2NUMPY_TYPE_CONV g
           = Some (if decide (n = np_int8) then np_uint8 else n))
  /\ (forall g,
        match table_get GDAL2NUMPY_TYPE_CONV g with
        | Some n =>
            table_get NUMPY2GDAL_TYPE_CONV n
            = Some (if decide (g = GDT_CInt16 \/ g = GDT_CInt32)
                    then GDT_CFloat32 else g)
        | None => g = GDT_Unknown
        end).
Proof.
  split.
  - intros n. destruct n; eexists; split; reflexivity.
  - intros g. destruct g; reflexivity.
Qed.

(** ** Target reference systems given as text *)

Lemma digit_of_char (d : nat) :
  is_digit d -> digit_of (digit_char d) = Some (Z.of_nat d).
Proof.
  unfold is_digit. intros Hd.
  do 10 (destruct d as [|d]; [reflexivity|]). lia.
Qed.

Lemma is_space_digit (d : nat) :
  is_digit d -> is_space (digit_char d) = false.
Proof.
  unfold is_digit. intros Hd.
  do 10 (destruct d as [|d]; [reflexivity|]). lia.
Qed.

Lemma starts_with_digit (d : nat) (s : string) :
  is_digit d -> starts_with "EPSG:" (String (digit_char d) s) = false.
Proof.
  unfold is_digit. intros Hd.
  do 10 (destruct d as [|d]; [reflexivity|]). lia.
Qed.

Lemma sign_digit (d : nat) (s : string) :
  is_digit d ->
  match String (digit_char d) s with
  | String "-" r => (true, r)
  | String "+" r => (false, r)
  | _ => (false, String (digit_char d) s)
  end = (false, String (digit_char d) s).
Proof.
  unfold is_digit. intros Hd.
  do 10 (destruct d as [|d]; [reflexivity|]). lia.
Qed.

Lemma lstrip_digits (ds : list nat) :
  Forall is_digit ds -> lstrip (digits_string ds) = digits_string ds.
Proof.
  intros HF. destruct ds as [|d ds]; [reflexivity|].
  inversion HF; subst. cbn [digits_string lstrip].
  now rewrite is_space_digit.
Qed.

Lemma rev_str_digits (ds acc : list nat) :
  rev_str (digits_string ds) (digits_string acc)
  = digits_string (rev ds ++ acc).
Proof.
  revert acc. induction ds as [|d ds IH]; intros acc; [reflexivity|].
  cbn [digits_string rev_str rev].
  change (String (digit_char d) (digits_string acc))
    with (digits_string (d :: acc)).
  rewrite IH, <- app_assoc. reflexivity.
Qed.

Lemma strip_digits (ds : list nat) :
  Forall is_digit ds -> strip (digits_string ds) = digits_string ds.
Proof.
  intros HF. unfold strip. rewrite lstrip_digits by assumption.
  change ""%string with (digits_string []).
  rewrite rev_str_digits, app_nil_r.
  rewrite lstrip_digits by (apply Forall_rev; assumption).
  rewrite rev_str_digits, app_nil_r, rev_involutive. reflexivity.
Qed.

Lemma parse_digits_digits (ds : list nat) (acc : Z) (b : bool) :
  Forall is_digit ds -> ds <> [] \/ b = true ->
  parse_digits (digits_string ds) acc b = Some (digits_value ds acc).
Proof.
  revert acc b. induction ds as [|d ds IH]; intros acc b HF Hb.
  - destruct Hb as [Hb| ->]; [congruence|reflexivity].
  - inversion HF; subst. cbn [digits_string parse_digits digits_value].
    rewrite digit_of_char by assumption. apply IH; auto.
Qed.

Lemma py_int_digits (ds : list nat) :
  ds <> [] -> Forall is_digit ds ->
  py_int (digits_string ds) = Ok (digits_value ds 0).
Proof.
  intros Hne HF. unfold py_int. rewrite strip_digits by assumption.
  destruct ds as [|d ds]; [congruence|].
  inversion HF; subst. cbn [digits_string].
  rewrite sign_digit by assumption.
  change (String (digit_char d) (digits_string ds))
    with (digits_string (d :: ds)).
  rewrite parse_digits_digits by auto. reflexivity.
Qed.

Lemma remove_all_digits (fuel : nat) (ds : list nat) :
  Forall is_digit ds ->
  remove_all fuel "EPSG:" (digits_string ds) = digits_string ds.
Proof.
  revert ds. induction fuel as [|fuel IH]; intros ds HF; [reflexivity|].
  destruct ds as [|d ds]; [reflexivity|].
  inversion HF; subst. cbn [digits_string remove_all].
  rewrite starts_with_digit by assumption. f_equal. apply IH; assumption.
Qed.

Lemma str_remove_digits (ds : list nat) :
  Forall is_digit ds ->
  str_remove (digits_string ds) "EPSG:" = digits_string ds.
Proof. intros HF. apply remove_all_digits; assumption. Qed.

Lemma str_remove_prefix_digits (ds : list nat) :
  Forall is_digit ds ->
  str_remove ("EPSG:" ++ digits_string ds) "EPSG:" = digits_string ds.
Proof.
  intros HF. unfold str_remove.
  change (remove_all (S (String.length ("EPSG:" ++ digits_string ds)))
            "EPSG:" ("EPSG:" ++ digits_string ds))
    with (remove_all (String.length ("EPSG:" ++ digits_string ds))
            "EPSG:" (digits_string ds)).
  apply remove_all_digits; assumption.
Qed.

Section SrsTargetProps.
Context {S T : Type} `{SrsLib S T}.

(** X21: a target reference system given as the text of a decimal numeral,
    with or without the prefix [EPSG:], is resolved exactly as the integer
    the numeral denotes: the same importer call, the same object or the
    same exception. *)
Theorem resolve_srs_target_text (ds : list nat) :
  ds <> [] -> Forall is_digit ds ->
  resolve_srs_target (Some (SrsStr ("EPSG:" ++ digits_string ds)))
  = resolve_srs_target (Some (SrsInt (digits_value ds 0)))
  /\ resolve_srs_target (Some (SrsStr (digits_string ds)))
     = resolve_srs_target (Some (SrsInt (digits_value ds 0))).
Proof.
  intros Hne HF. unfold resolve_srs_target.
  rewrite str_remove_prefix_digits, str_remove_digits by assumption.
  rewrite py_int_digits by assumption. split; reflexivity.
Qed.

End SrsTargetProps.

Lemma resolve_srs_target_text_witness :
  resolve_srs_target (S := BoxModel.epsg) (Some (SrsStr "EPSG:4326"))
  = resolve_srs_target (Some (SrsInt 4326))
  /\ resolve_srs_target (S := BoxModel.epsg) (Some (SrsStr "4326"))
     = resolve_srs_target (Some (SrsInt 4326)).
Proof.
  apply (resolve_srs_target_text (S := BoxModel.epsg) [4; 2+1; 2; 6]%nat).
  - discriminate.
  - unfold is_digit. repeat constructor; lia.
Defined.
